(** * appointment_addons: a shallow embedding of the booking endpoints

    The Frappe endpoints of [www/book_appointment.py],
    [www/book-appointment.py], [www/video-production-appointment.py],
    [www/availability-settings.py] and the [validate] hook of the
    [Video Production Appointment] doctype, translated into Rocq.

    Conventions.
    - A Python value received in a request payload is a [json] value;
      [truthy] is Python's truth test on it.
    - Code that may raise returns an [outcome]: [Ret v], [Raise e] for a
      Python exception [e], or [Hang] for a loop that never ends.
    - A [datetime.date] is its proleptic ordinal ([date.toordinal()]), a
      time of day is its number of seconds since midnight, and a
      [datetime] is [ordinal * 86400 + seconds].
    - The database of the framework is an explicit value threaded through
      the calls; queries that may fail are [option]s ([None]: the query
      raised). *)

From Stdlib Require Import String Ascii List ZArith Bool Lia Sorted.
Import ListNotations.
Open Scope string_scope.
Open Scope Z_scope.
#[global] Set Warnings "-register-all".

(** ** Python values and exceptions *)

Inductive json : Type :=
| JNull
| JBool (b : bool)
| JInt (z : Z)
| JStr (s : string)
| JList (l : list json)
| JObj (kvs : list (string * json)).

(** Python's [bool(v)]. *)
Definition truthy (v : json) : bool :=
  match v with
  | JNull => false
  | JBool b => b
  | JInt z => negb (z =? 0)
  | JStr s => negb (String.eqb s "")
  | JList l => match l with [] => false | _ => true end
  | JObj kvs => match kvs with [] => false | _ => true end
  end.

(** A raised exception: [str(e)] and [traceback.format_exc()]. *)
Record PyExc := mkExc { exc_msg : string; exc_tb : string }.

Inductive outcome (A : Type) : Type :=
| Ret (a : A)
| Raise (e : PyExc)
| Hang.
Arguments Ret {A} a.
Arguments Raise {A} e.
Arguments Hang {A}.

Definition bind {A B} (m : outcome A) (k : A -> outcome B) : outcome B :=
  match m with
  | Ret a => k a
  | Raise e => Raise e
  | Hang => Hang
  end.

Notation "x <- m ;; k" := (bind m (fun x => k))
  (at level 61, m at next level, right associativity).

(** The [ValidationError] raised by [frappe.throw(msg)]. *)
Definition validation_error (msg : string) : PyExc :=
  mkExc msg ("Traceback (most recent call last):" ++ String "010" "frappe.exceptions.ValidationError: " ++ msg).

Definition db_error : PyExc :=
  mkExc "(2013, 'Lost connection to MySQL server during query')"
        "Traceback (most recent call last): pymysql.err.OperationalError".

Definition value_error : PyExc :=
  mkExc "hour must be in 0..23" "Traceback (most recent call last): ValueError: hour must be in 0..23".

Definition overflow_error : PyExc :=
  mkExc "date value out of range" "Traceback (most recent call last): OverflowError: date value out of range".

Definition attribute_error : PyExc :=
  mkExc "'NoneType' object has no attribute 'strip'"
        "Traceback (most recent call last): AttributeError: 'NoneType' object has no attribute 'strip'".

(** Python [for x in seq: slots += f(x)], stopping at the first exception. *)
Fixpoint concat_map_out {A B} (f : A -> outcome (list B)) (l : list A) : outcome (list B) :=
  match l with
  | [] => Ret []
  | x :: r =>
      ys <- f x ;;
      zs <- concat_map_out f r ;;
      Ret (ys ++ zs)%list
  end.

(** ** Strings: [str.strip], [str.upper], [str.lower] (ASCII range) *)

Definition is_py_space (c : ascii) : bool :=
  let n := nat_of_ascii c in
  (Nat.leb 9 n && Nat.leb n 13) || (Nat.leb 28 n && Nat.leb n 32).

Fixpoint lstrip_chars (l : list ascii) : list ascii :=
  match l with
  | [] => []
  | c :: r => if is_py_space c then lstrip_chars r else l
  end.

Definition py_strip (s : string) : string :=
  string_of_list_ascii
    (rev (lstrip_chars (rev (lstrip_chars (list_ascii_of_string s))))).

Definition ascii_upper (c : ascii) : ascii :=
  let n := nat_of_ascii c in
  if Nat.leb 97 n && Nat.leb n 122 then ascii_of_nat (n - 32) else c.

Definition ascii_lower (c : ascii) : ascii :=
  let n := nat_of_ascii c in
  if Nat.leb 65 n && Nat.leb n 90 then ascii_of_nat (n + 32) else c.

Fixpoint py_lower (s : string) : string :=
  match s with
  | EmptyString => EmptyString
  | String c r => String (ascii_lower c) (py_lower r)
  end.

(** [day[0].upper() + day[1:].lower() if len(day) > 0 else ""] *)
Definition normalize_day (day : string) : string :=
  match day with
  | EmptyString => ""
  | String c r => String (ascii_upper c) (py_lower r)
  end.

(** ** Calendar *)

(** [date.strftime("%A")]: [date.weekday()] is [(toordinal() + 6) % 7]. *)
Definition weekday_names : list string :=
  ["Monday"; "Tuesday"; "Wednesday"; "Thursday"; "Friday"; "Saturday"; "Sunday"].

Definition weekday_name (date : Z) : string :=
  nth (Z.to_nat ((date + 6) mod 7)) weekday_names "".

Definition day_seconds : Z := 86400.

(** ** The shared database and request context *)

(** [Appointment Booking Settings] (a Single doctype). *)
Record ABSettings := mkABSettings {
  enable_scheduling : Z;
  appointment_duration : Z;     (** minutes; 0 when unset *)
  advance_booking_days : Z      (** 0 when unset *)
}.

(** A row of the child table [Appointment Booking Slots]; the Time
    columns come back from [frappe.get_all] as [timedelta]s, given here by
    their total seconds ([None]: NULL). *)
Record SlotRow := mkSlotRow {
  day_of_week : option string;
  row_from_time : option Z;
  row_to_time : option Z
}.

(** [Appointment Settings] (a Single doctype), read by [book-appointment.py].
    The Time fields are strings ["HH:MM:SS"], given by their hour and minute
    parts ([None]: empty). *)
Record AppSettings := mkAppSettings {
  working_start_time : option (Z * Z);
  working_end_time : option (Z * Z);
  default_slot_duration : Z;
  monday : bool; tuesday : bool; wednesday : bool; thursday : bool;
  friday : bool; saturday : bool; sunday : bool
}.

(** A row of [Appointment Booking] or [Video Production Appointment], as
    far as the slot queries look at it. *)
Record Booking := mkBooking {
  bk_doctype : string;
  bk_date : Z;          (** ordinal of [booking_date] *)
  bk_time : Z;          (** [booking_time], seconds since midnight *)
  bk_status : string
}.

Record Env := mkEnv {
  ab_get_doc : option ABSettings;     (** [frappe.get_doc(...)]; [None]: raised *)
  ab_get_single : option ABSettings;  (** [frappe.get_single(...)]; [None]: raised *)
  ab_slot_rows : option (list SlotRow); (** ordered by [idx]; [None]: raised *)
  app_settings : option AppSettings;  (** [None]: [get_single] raised *)
  active_service_durations : option (list Z);
  bookings : option (list Booking);   (** [None]: every query on them raises *)
  today : Z;                          (** [getdate()] *)
  now : Z                             (** [datetime.now()] *)
}.

(** An element of the list returned by [get_time_slots]; the display
    strings are formatted from these fields and not modelled. *)
Record Slot := mkSlot {
  slot_date : Z;
  slot_day : string;
  slot_from : Z;   (** seconds since midnight *)
  slot_to : Z
}.

Definition slot_start (s : Slot) : Z := slot_date s * day_seconds + slot_from s.

(** [frappe.db.count(doctype, {"booking_date": date, "booking_time": t,
    "status": ["in", ["Pending", "Confirmed"]]})] *)
Definition active_status (st : string) : bool :=
  String.eqb st "Pending" || String.eqb st "Confirmed".

Definition booking_matches (dt : string) (date tod : Z) (b : Booking) : bool :=
  String.eqb (bk_doctype b) dt && (bk_date b =? date) && (bk_time b =? tod)
  && active_status (bk_status b).

Definition db_count (env : Env) (dt : string) (date tod : Z) : outcome Z :=
  match bookings env with
  | None => Raise db_error
  | Some bs => Ret (Z.of_nat (length (filter (booking_matches dt date tod) bs)))
  end.

(** ** [www/book_appointment.py]: [get_time_slots] *)

Module BookAppointment.

(** [int(v or d)] on an Int field. *)
Definition or_default (v d : Z) : Z := if v =? 0 then d else v.

(** The [try: get_doc(...) except: try: get_single(...) except: return []]
    cascade; [None]: both lookups raised. *)
Definition settings_lookup (env : Env) : option ABSettings :=
  match ab_get_doc env with
  | Some s => Some s
  | None => ab_get_single env
  end.

(** [if not from_time_val]: a NULL or a zero [timedelta] is falsy. *)
Definition td_truthy (v : option Z) : bool :=
  match v with None => false | Some s => negb (s =? 0) end.

(** [parse_time] on a [timedelta] of [s] seconds:
    [time_module(s // 3600, (s % 3600) // 60, s % 60)] raises [ValueError]
    unless the hour lies in [0..23]. *)
Definition parse_time (s : Z) : outcome Z :=
  if (0 <=? s) && (s <? day_seconds) then Ret s else Raise value_error.

Definition Range : Type := (option Z * option Z)%type.

(** [availability_by_day[day].append(...)], creating the key if needed
    (a dict keeps its keys in insertion order). *)
Fixpoint add_range (m : list (string * list Range)) (day : string) (r : Range)
  : list (string * list Range) :=
  match m with
  | [] => [(day, [r])]
  | (d, rs) :: m' =>
      if String.eqb d day then (d, (rs ++ [r])%list) :: m'
      else (d, rs) :: add_range m' day r
  end.

(** The grouping loop over the rows; a NULL [day_of_week] makes
    [slot.get('day_of_week', '').strip()] raise. *)
Fixpoint group_rows (rows : list SlotRow) (m : list (string * list Range))
  : outcome (list (string * list Range)) :=
  match rows with
  | [] => Ret m
  | row :: rest =>
      match day_of_week row with
      | None => Raise attribute_error
      | Some raw =>
          let day := py_strip raw in
          if String.eqb day "" then group_rows rest m
          else group_rows rest
                 (add_range m (normalize_day day) (row_from_time row, row_to_time row))
      end
  end.

Fixpoint lookup_day (m : list (string * list Range)) (day : string) : option (list Range) :=
  match m with
  | [] => None
  | (d, rs) :: m' => if String.eqb d day then Some rs else lookup_day m' day
  end.

(** The two [frappe.db.count] queries: [Appointment Booking] first, then
    [Video Production Appointment] when the first found nothing. *)
Definition is_booked (env : Env) (date tod : Z) : outcome bool :=
  n1 <- db_count env "Appointment Booking" date tod ;;
  if 0 <? n1 then Ret true
  else
    n2 <- db_count env "Video Production Appointment" date tod ;;
    Ret (0 <? n2).

(** The [while current_time + duration <= end_datetime] loop of one
    working range.  [cur], [end_dt] are datetimes and [dur] the duration in
    seconds.  With a negative duration the cursor walks back until
    [datetime] arithmetic raises [OverflowError]; a positive duration ends
    the loop within [end_dt - cur + 1] rounds, the fuel given below. *)
Fixpoint sweep (fuel : nat) (env : Env) (date : Z) (day_name : string)
    (dur cur end_dt : Z) : outcome (list Slot) :=
  match fuel with
  | O => Ret []
  | S fuel' =>
      if cur + dur <=? end_dt then
        if dur <=? 0 then Raise overflow_error
        else if cur <? now env - 5 * 60 then
          (* skip past times (allow 5 minute buffer) *)
          sweep fuel' env date day_name dur (cur + dur) end_dt
        else
          booked <- is_booked env date (cur mod day_seconds) ;;
          rest <- sweep fuel' env date day_name dur (cur + dur) end_dt ;;
          if booked then Ret rest
          else Ret (mkSlot date day_name (cur mod day_seconds)
                      ((cur + dur) mod day_seconds) :: rest)
      else Ret []
  end.

Definition range_slots (env : Env) (date : Z) (day_name : string) (dur : Z)
    (r : Range) : outcome (list Slot) :=
  match r with
  | (Some fv, Some tv) =>
      if td_truthy (Some fv) && td_truthy (Some tv) then
        from_time <- parse_time fv ;;
        to_time <- parse_time tv ;;
        let cur := date * day_seconds + from_time in
        let end_dt := date * day_seconds + to_time in
        sweep (S (Z.to_nat (end_dt - cur))) env date day_name dur cur end_dt
      else Ret []
  | _ => Ret []
  end.

Definition day_slots (env : Env) (by_day : list (string * list Range)) (dur : Z)
    (date : Z) : outcome (list Slot) :=
  let day_name := weekday_name date in
  match lookup_day by_day day_name with
  | None => Ret []
  | Some ranges => concat_map_out (range_slots env date day_name dur) ranges
  end.

(** The body of the outer [try]. *)
Definition get_time_slots_body (env : Env) : outcome (list Slot) :=
  match settings_lookup env with
  | None => Ret []
  | Some s =>
      if enable_scheduling s =? 0 then Ret []
      else
        let appointment_duration := or_default (appointment_duration s) 60 in
        let advance_booking_days := or_default (advance_booking_days s) 7 in
        match ab_slot_rows env with
        | None => Raise db_error
        | Some [] => Ret []
        | Some rows =>
            by_day <- group_rows rows [] ;;
            match by_day with
            | [] => Ret []
            | _ =>
                concat_map_out (day_slots env by_day (appointment_duration * 60))
                  (map (fun i => today env + Z.of_nat i)
                     (seq 0 (Z.to_nat advance_booking_days)))
            end
        end
  end.

(** [get_time_slots()]: [except Exception: return []]; [None] would be a
    call that never returns. *)
Definition get_time_slots (env : Env) : option (list Slot) :=
  match get_time_slots_body env with
  | Ret l => Some l
  | Raise _ => Some []
  | Hang => None
  end.

End BookAppointment.

(** ** [www/book-appointment.py]: [get_time_slots] *)

Module BookAppointmentPage.

(** [time_module(int(parts[0]), int(parts[1]))]; an empty field falls back
    to [dflt]. *)
Definition parse_hm (v : option (Z * Z)) (dflt : Z) : outcome Z :=
  match v with
  | None => Ret dflt
  | Some (h, m) =>
      if (0 <=? h) && (h <? 24) && (0 <=? m) && (m <? 60) then Ret (h * 3600 + m * 60)
      else Raise value_error
  end.

(** The [day_mapping] loop, in the dict's order, with the Monday-Friday
    default. *)
Definition working_days (s : AppSettings) : list string :=
  let days :=
    map snd (filter fst
      [(monday s, "Monday"); (tuesday s, "Tuesday"); (wednesday s, "Wednesday");
       (thursday s, "Thursday"); (friday s, "Friday"); (saturday s, "Saturday");
       (sunday s, "Sunday")]) in
  match days with
  | [] => ["Monday"; "Tuesday"; "Wednesday"; "Thursday"; "Friday"]
  | _ => days
  end.

Definition list_min (d : Z) (ds : list Z) : Z := fold_left Z.min ds d.

(** [min(s.duration for s in services)] or [default_slot_duration or 60]. *)
Definition slot_duration (env : Env) (s : AppSettings) : outcome Z :=
  match active_service_durations env with
  | None => Raise db_error
  | Some [] => Ret (if default_slot_duration s =? 0 then 60 else default_slot_duration s)
  | Some (d :: ds) => Ret (list_min d ds)
  end.

(** [frappe.get_all("Appointment Booking", filters=...)] is non-empty;
    only [Appointment Booking] is consulted. *)
Definition has_booking (env : Env) (date tod : Z) : outcome bool :=
  n <- db_count env "Appointment Booking" date tod ;;
  Ret (0 <? n).

(** The [while] loop of one working day.  A zero duration never moves the
    cursor; a negative one walks back until [OverflowError]. *)
Fixpoint sweep (fuel : nat) (env : Env) (date : Z) (day_name : string)
    (dur cur end_dt : Z) : outcome (list Slot) :=
  match fuel with
  | O => Ret []
  | S fuel' =>
      if cur + dur <=? end_dt then
        if dur =? 0 then Hang
        else if dur <? 0 then Raise overflow_error
        else if cur <=? now env then
          sweep fuel' env date day_name dur (cur + dur) end_dt
        else
          booked <- has_booking env date (cur mod day_seconds) ;;
          rest <- sweep fuel' env date day_name dur (cur + dur) end_dt ;;
          if booked then Ret rest
          else Ret (mkSlot date day_name (cur mod day_seconds)
                      ((cur + dur) mod day_seconds) :: rest)
      else Ret []
  end.

Definition day_slots (env : Env) (days : list string) (start_time end_time dur : Z)
    (date : Z) : outcome (list Slot) :=
  let day_name := weekday_name date in
  if existsb (String.eqb day_name) days then
    let cur := date * day_seconds + start_time in
    let end_dt := date * day_seconds + end_time in
    sweep (S (Z.to_nat (end_dt - cur))) env date day_name (dur * 60) cur end_dt
  else Ret [].

Definition get_time_slots_body (env : Env) : outcome (list Slot) :=
  match app_settings env with
  | None => Raise db_error
  | Some s =>
      start_time <- parse_hm (working_start_time s) (9 * 3600) ;;
      end_time <- parse_hm (working_end_time s) (18 * 3600) ;;
      dur <- slot_duration env s ;;
      concat_map_out (day_slots env (working_days s) start_time end_time dur)
        (map (fun i => today env + Z.of_nat i) (seq 0 30))
  end.

Definition get_time_slots (env : Env) : option (list Slot) :=
  match get_time_slots_body env with
  | Ret l => Some l
  | Raise _ => Some []
  | Hang => None
  end.

End BookAppointmentPage.

(** ** Request handling without loops: [result] *)

(** The intake code below has no unbounded loop: it returns or raises. *)
Inductive result (A : Type) : Type :=
| Ok (a : A)
| Err (e : PyExc).
Arguments Ok {A} a.
Arguments Err {A} e.

Definition rbind {A B} (m : result A) (k : A -> result B) : result B :=
  match m with
  | Ok a => k a
  | Err e => Err e
  end.

Notation "x <-? m ;; k" := (rbind m (fun x => k))
  (at level 61, m at next level, right associativity).

(** [frappe.throw(msg)]. *)
Definition throw {A} (msg : string) : result A := Err (validation_error msg).

Definition no_get_error : PyExc :=
  mkExc "'list' object has no attribute 'get'"
        "Traceback (most recent call last): AttributeError: 'list' object has no attribute 'get'".

Definition not_iterable_error : PyExc :=
  mkExc "'int' object is not iterable"
        "Traceback (most recent call last): TypeError: 'int' object is not iterable".

Fixpoint assoc (k : string) (kvs : list (string * json)) : option json :=
  match kvs with
  | [] => None
  | (k', v) :: r => if String.eqb k k' then Some v else assoc k r
  end.

(** [d.get(k, dflt)]; raises when [d] is not a dict. *)
Definition py_get (d : json) (k : string) (dflt : json) : result json :=
  match d with
  | JObj kvs => match assoc k kvs with Some v => Ok v | None => Ok dflt end
  | _ => Err no_get_error
  end.

(** [for x in v]: a list yields its items, a string its characters and a
    dict its keys. *)
Definition py_iter (v : json) : result (list json) :=
  match v with
  | JList l => Ok l
  | JStr s => Ok (map (fun c => JStr (String c EmptyString)) (list_ascii_of_string s))
  | JObj kvs => Ok (map (fun kv => JStr (fst kv)) kvs)
  | _ => Err not_iterable_error
  end.

Fixpoint map_res {A B} (f : A -> result B) (l : list A) : result (list B) :=
  match l with
  | [] => Ok []
  | x :: r => y <-? f x ;; ys <-? map_res f r ;; Ok (y :: ys)
  end.

(** Python [v == "literal"]. *)
Definition is_str (v : json) (s : string) : bool :=
  match v with JStr s' => String.eqb s' s | _ => false end.

(** The dict returned by the booking endpoints. *)
Record Response := mkResponse {
  success : bool;
  message : string;
  appointment_id : option string
}.

(** ** [www/book_appointment.py]: [create_appointment] and
    [debug_appointment_settings] *)

Module Intake.

(** An [Appointment Booking] document. *)
Record ABDoc := mkABDoc {
  ab_customer_name : json;
  ab_phone_number : json;
  ab_email : json;
  ab_meeting_location : json;
  ab_booking_date : json;
  ab_booking_time : json;
  ab_status : string;
  ab_services : list json;
  ab_location : json;
  ab_street_name : json;
  ab_building_name : json;
  ab_apartment_number : json;
  ab_company_location : json
}.

Section CreateAppointment.

(** [validate_email_address(email, throw=True)]: [Some e] raises [e]. *)
Variable validate_email_address : json -> option PyExc.
(** [json.loads] on the [selected_services] string. *)
Variable json_loads : string -> result json.
(** [frappe.get_single("Appointment Settings").company_location]. *)
Variable settings_company_location : result json.
(** The checks [doc.insert(ignore_permissions=True)] runs before writing
    (mandatory fields, links, the [before_insert] hook): [Some e] raises. *)
Variable insert_check : ABDoc -> option PyExc.
(** The name the naming series gives to the next document. *)
Variable autoname : list ABDoc -> string.

Definition require (data : json) (k msg : string) : result json :=
  v <-? py_get data k JNull ;;
  if truthy v then Ok v else throw msg.

(** The body of the [try] block: the new table of bookings and the name. *)
Definition create_appointment_body (data : json) (db : list ABDoc)
  : result (list ABDoc * string) :=
  customer_name <-? require data "customer_name" "Customer Name is required" ;;
  phone_number <-? require data "phone_number" "Phone Number is required" ;;
  email <-? require data "email" "Email is required" ;;
  _ <-? match validate_email_address email with Some e => Err e | None => Ok tt end ;;
  selected_services <-? require data "selected_services" "Please select at least one service" ;;
  meeting_location <-? require data "meeting_location" "Meeting Location is required" ;;
  booking_date <-? require data "booking_date" "Booking Date is required" ;;
  booking_time <-? require data "booking_time" "Booking Time is required" ;;
  services <-? match selected_services with
               | JStr s => json_loads s
               | v => Ok v
               end ;;
  service_names <-? py_iter services ;;
  loc <-? (if is_str meeting_location "Customer Location" then
             location <-? py_get data "location" (JStr "") ;;
             street_name <-? py_get data "street_name" (JStr "") ;;
             building_name <-? py_get data "building_name" (JStr "") ;;
             apartment_number <-? py_get data "apartment_number" (JStr "") ;;
             Ok (location, street_name, building_name, apartment_number, JNull)
           else
             company_location <-? settings_company_location ;;
             Ok (JNull, JNull, JNull, JNull, company_location)) ;;
  let '(location, street_name, building_name, apartment_number, company_location) := loc in
  let doc := mkABDoc customer_name phone_number email meeting_location booking_date
               booking_time "Pending" service_names location street_name
               building_name apartment_number company_location in
  match insert_check doc with
  | Some e => Err e
  | None => Ok ((db ++ [doc])%list, autoname db)
  end.

(** [create_appointment(data)]: the confirmation e-mail is sent in its own
    [try/except: pass] and does not change the response;
    [except Exception as e: return {"success": False, "message": str(e)}]. *)
Definition create_appointment (data : json) (db : list ABDoc) : Response * list ABDoc :=
  match create_appointment_body data db with
  | Ok (db', name) =>
      (mkResponse true "Your appointment has been booked successfully!" (Some name), db')
  | Err e => (mkResponse false (exc_msg e) None, db)
  end.

End CreateAppointment.

(** [str(timedelta)] for a time of day: ["H:MM:SS"]. *)
Definition digit (n : Z) : string := String (ascii_of_nat (48 + Z.to_nat n)) EmptyString.

Fixpoint z_digits (fuel : nat) (n : Z) : string :=
  match fuel with
  | O => ""
  | S f => if n <? 10 then digit n else z_digits f (n / 10) ++ digit (n mod 10)
  end.

Definition z_str (n : Z) : string := z_digits 20 n.

Definition two (n : Z) : string := if n <? 10 then "0" ++ z_str n else z_str n.

Definition py_str_time (v : option Z) : string :=
  match v with
  | None => "None"
  | Some s => z_str (s / 3600) ++ ":" ++ two ((s mod 3600) / 60) ++ ":" ++ two (s mod 60)
  end.

Definition py_type_name (v : option Z) : string :=
  match v with None => "NoneType" | Some _ => "timedelta" end.

Definition slot_debug_info (idx : nat) (r : SlotRow) : json :=
  JObj [("index", JInt (Z.of_nat idx));
        ("day_of_week", match day_of_week r with Some d => JStr d | None => JNull end);
        ("from_time", JStr (py_str_time (row_from_time r)));
        ("to_time", JStr (py_str_time (row_to_time r)));
        ("from_time_type", JStr (py_type_name (row_from_time r)));
        ("to_time_type", JStr (py_type_name (row_to_time r)))].

(** [debug_appointment_settings()]; its argument is the outcome of
    [frappe.get_single("Appointment Booking Settings")] with the rows of its
    [availability_of_slots] table. *)
Definition debug_appointment_settings (settings : result (ABSettings * list SlotRow)) : json :=
  match settings with
  | Ok (s, rows) =>
      JObj [("settings_exists", JBool true);
            ("enable_scheduling", JInt (enable_scheduling s));
            ("appointment_duration", JInt (appointment_duration s));
            ("advance_booking_days", JInt (advance_booking_days s));
            ("has_availability_of_slots", JBool true);
            ("availability_slots_count", JInt (Z.of_nat (length rows)));
            ("availability_slots",
              JList (map (fun p => slot_debug_info (fst p) (snd p))
                       (combine (seq 0 (length rows)) rows)))]
  | Err e =>
      JObj [("error", JStr (exc_msg e)); ("traceback", JStr (exc_tb e))]
  end.

End Intake.

(** ** [Video Production Appointment]: the doctype's [validate] and
    [www/video-production-appointment.py]: [create_appointment] *)

Module VideoProduction.

Record VDoc := mkVDoc {
  vd_company : json;
  vd_customer_name : json;
  vd_phone_number : json;
  vd_email : json;
  vd_appointment_type : json;
  vd_booking_date : json;
  vd_booking_time : json;
  vd_status : string;
  vd_industry : json;
  vd_service : json;
  vd_requirements : json;
  vd_budget : json;
  vd_notes : json;
  vd_references : json;
  vd_brand_name : json;
  vd_acknowledgment_checkbox : json;
  vd_current_client_references : json;
  vd_meeting_location : json;
  vd_google_location : json;
  vd_city : json;
  vd_zone_number : json;
  vd_street_number : json;
  vd_building_number : json;
  vd_location : json;
  vd_street_name : json;
  vd_building_name : json;
  vd_apartment_number : json
}.

(** [VideoProductionAppointment.validate]. *)
Definition validate (doc : VDoc) : result unit :=
  if is_str (vd_appointment_type doc) "New Customer" then
    if negb (truthy (vd_industry doc)) then
      throw "Industry is required for New Customer appointments"
    else if negb (truthy (vd_requirements doc)) then
      throw "Requirements is required for New Customer appointments"
    else if negb (truthy (vd_budget doc)) then
      throw "Budget is required for New Customer appointments"
    else Ok tt
  else if is_str (vd_appointment_type doc) "Current Active Client" then
    if negb (truthy (vd_brand_name doc)) then
      throw "Name of Your Brand is required for Current Active Client appointments"
    else if negb (truthy (vd_booking_date doc)) then
      throw "Schedule is required for Current Active Client appointments"
    else if negb (truthy (vd_acknowledgment_checkbox doc)) then
      throw "Please acknowledge the cancellation policy"
    else Ok tt
  else Ok tt.

Section CreateAppointment.

Variable validate_email_address : json -> option PyExc.
(** What [doc.insert] checks besides [validate]: the [before_insert] lookups
    of the customer, mandatory fields and links; [Some e] raises. *)
Variable insert_check : VDoc -> option PyExc.
Variable autoname : list VDoc -> string.

Definition require (data : json) (k msg : string) : result json :=
  v <-? py_get data k JNull ;;
  if truthy v then Ok v else throw msg.

(** [company = data.get("company", "Directlines")], normalised and checked. *)
Definition check_company (data : json) : result json :=
  company <-? py_get data "company" (JStr "Directlines") ;;
  let company :=
    if is_str company "Direct Line" || is_str company "Directlines"
    then JStr "Directlines" else company in
  if is_str company "Easy AI" || is_str company "Directlines" then Ok company
  else throw "Invalid company selected".

(** [if data.get(k): doc.k = data.get(k, "")]: the field stays unset
    otherwise. *)
Definition optional_field (data : json) (k : string) : result json :=
  v <-? py_get data k JNull ;;
  if truthy v then Ok v else Ok JNull.

Definition create_appointment_body (data : json) (db : list VDoc)
  : result (list VDoc * string) :=
  customer_name <-? require data "customer_name" "Customer Name is required" ;;
  phone_number <-? require data "phone_number" "Phone Number is required" ;;
  email <-? require data "email" "Email is required" ;;
  _ <-? match validate_email_address email with Some e => Err e | None => Ok tt end ;;
  appointment_type <-? require data "appointment_type" "Appointment Type is required" ;;
  _ <-? require data "meeting_location" "Meeting Location is required" ;;
  booking_date <-? require data "booking_date" "Booking Date is required" ;;
  booking_time <-? require data "booking_time" "Booking Time is required" ;;
  company <-? check_company data ;;
  industry <-? (if is_str appointment_type "New Customer"
                then py_get data "industry" (JStr "") else Ok JNull) ;;
  service <-? (if is_str appointment_type "New Customer"
               then py_get data "service" (JStr "") else Ok JNull) ;;
  requirements <-? (if is_str appointment_type "New Customer"
                    then py_get data "requirements" (JStr "") else Ok JNull) ;;
  budget <-? (if is_str appointment_type "New Customer"
              then py_get data "budget" (JStr "") else Ok JNull) ;;
  notes <-? (if is_str appointment_type "New Customer"
             then py_get data "notes" (JStr "") else Ok JNull) ;;
  references <-? (if is_str appointment_type "New Customer"
                  then py_get data "references" (JStr "") else Ok JNull) ;;
  brand_name <-? (if is_str appointment_type "New Customer"
                  then Ok JNull else py_get data "brand_name" (JStr "")) ;;
  acknowledgment <-? (if is_str appointment_type "New Customer"
                      then Ok JNull else py_get data "acknowledgment_checkbox" (JInt 0)) ;;
  client_references <-? (if is_str appointment_type "New Customer"
                         then Ok JNull else py_get data "current_client_references" (JStr "")) ;;
  meeting_location <-? py_get data "meeting_location" (JStr "Customer Location") ;;
  google_location <-? py_get data "google_location" (JStr "") ;;
  city <-? py_get data "city" (JStr "") ;;
  zone_number <-? py_get data "zone_number" (JStr "") ;;
  street_number <-? py_get data "street_number" (JStr "") ;;
  building_number <-? py_get data "building_number" (JStr "") ;;
  location <-? optional_field data "location" ;;
  street_name <-? optional_field data "street_name" ;;
  building_name <-? optional_field data "building_name" ;;
  apartment_number <-? optional_field data "apartment_number" ;;
  let doc := mkVDoc company customer_name phone_number email appointment_type
               booking_date booking_time "Pending" industry service requirements
               budget notes references brand_name acknowledgment client_references
               meeting_location google_location city zone_number street_number
               building_number location street_name building_name apartment_number in
  (* doc.insert(): validate, then the framework's checks; the e-mail of
     after_insert is sent inside its own try/except *)
  _ <-? validate doc ;;
  match insert_check doc with
  | Some e => Err e
  | None => Ok ((db ++ [doc])%list, autoname db)
  end.

Definition create_appointment (data : json) (db : list VDoc) : Response * list VDoc :=
  match create_appointment_body data db with
  | Ok (db', name) =>
      (mkResponse true
         "Your appointment request has been submitted successfully! We will contact you soon."
         (Some name), db')
  | Err e => (mkResponse false (exc_msg e) None, db)
  end.

End CreateAppointment.

End VideoProduction.

(** ** [www/availability-settings.py]: [save_availability] *)

Module Availability.

(** A [User Availability] document with its [time_slots] child rows. *)
Record UADoc := mkUA {
  ua_name : string;
  ua_user : string;
  ua_day_of_week : json;
  ua_is_available : Z;
  ua_time_slots : list (json * json)
}.

Section SaveAvailability.

(** The value the database compares when a filter names [day_of_week]
    (the column's collation decides, e.g. case-insensitively). *)
Variable db_key : json -> string.
(** [frappe.utils.cint] on a string. *)
Variable cint_str : string -> Z.
(** The checks of [doc.save()] / [doc.insert()]; [Some e] raises. *)
Variable save_check : UADoc -> option PyExc.
(** The name given to a new document. *)
Variable autoname : list UADoc -> string.

Definition cint (v : json) : Z :=
  match v with
  | JNull => 0
  | JBool b => if b then 1 else 0
  | JInt z => z
  | JStr s => cint_str s
  | _ => 0
  end.

(** A Check field is written as [1 if cint(v) else 0]. *)
Definition check_value (v : json) : Z := if cint v =? 0 then 0 else 1.

Definition matches (user : string) (day : json) (r : UADoc) : bool :=
  String.eqb (ua_user r) user && String.eqb (db_key (ua_day_of_week r)) (db_key day).

(** [frappe.db.exists("User Availability", {"user": user, "day_of_week": day})] *)
Definition db_exists (user : string) (day : json) (db : list UADoc) : option UADoc :=
  find (matches user day) db.

(** [doc.save()]: the row with the document's name is rewritten. *)
Definition db_update (doc : UADoc) (db : list UADoc) : list UADoc :=
  map (fun r => if String.eqb (ua_name r) (ua_name doc) then doc else r) db.

(** [{"from_time": slot.get("from_time"), "to_time": slot.get("to_time")}] *)
Definition slot_row (slot : json) : result (json * json) :=
  f <-? py_get slot "from_time" JNull ;;
  t <-? py_get slot "to_time" JNull ;;
  Ok (f, t).

(** The appended rows: [if is_available: for slot in time_slots: ...]. *)
Definition new_slots (is_available time_slots : json) : result (list (json * json)) :=
  if truthy is_available then
    items <-? py_iter time_slots ;;
    map_res slot_row items
  else Ok [].

(** One round of [for day_data in data]. *)
Definition save_day (user : string) (day_data : json) (db : list UADoc)
  : result (list UADoc) :=
  day <-? py_get day_data "day" JNull ;;
  is_available <-? py_get day_data "is_available" (JInt 0) ;;
  time_slots <-? py_get day_data "time_slots" (JList []) ;;
  match db_exists user day db with
  | Some existing =>
      (* doc.is_available = is_available; doc.time_slots = []; append *)
      slots <-? new_slots is_available time_slots ;;
      let doc := mkUA (ua_name existing) (ua_user existing) (ua_day_of_week existing)
                   (check_value is_available) slots in
      match save_check doc with
      | Some e => Err e
      | None => Ok (db_update doc db)
      end
  | None =>
      slots <-? new_slots is_available time_slots ;;
      let doc := mkUA (autoname db) user day (check_value is_available) slots in
      match save_check doc with
      | Some e => Err e
      | None => Ok (db ++ [doc])%list
      end
  end.

(** The loop; documents saved before an exception stay saved (the request
    still ends normally and is committed). *)
Fixpoint save_days (user : string) (entries : list json) (db : list UADoc)
  : list UADoc * option PyExc :=
  match entries with
  | [] => (db, None)
  | day_data :: rest =>
      match save_day user day_data db with
      | Ok db' => save_days user rest db'
      | Err e => (db, Some e)
      end
  end.

Definition save_availability (data : json) (user : string) (db : list UADoc)
  : Response * list UADoc :=
  let fail e := mkResponse false (exc_msg e) None in
  if String.eqb user "Guest" then
    (fail (validation_error "You need to be logged in"), db)
  else
    match py_iter data with
    | Err e => (fail e, db)
    | Ok entries =>
        match save_days user entries db with
        | (db', None) =>
            (mkResponse true "Availability settings saved successfully!" None, db')
        | (db', Some e) => (fail e, db')
        end
    end.

End SaveAvailability.

End Availability.

(** ** [www/availability-settings.py]: [get_context] *)

Module AvailabilityPage.
Import Availability.

(** [frappe.throw(msg, frappe.PermissionError)]. *)
Definition permission_error (msg : string) : PyExc :=
  mkExc msg ("Traceback (most recent call last):" ++ String "010" "frappe.exceptions.PermissionError: " ++ msg).

Definition days_of_week : list string :=
  ["Monday"; "Tuesday"; "Wednesday"; "Thursday"; "Friday"; "Saturday"; "Sunday"].

(** An entry of [context.availability]. *)
Record DayView := mkDayView {
  dv_name : option string;
  dv_is_available : Z;
  dv_time_slots : list (json * json)
}.

Definition empty_view : DayView := mkDayView None 0 [].

Record Context := mkContext {
  cx_current_user : string;
  cx_days_of_week : list string;
  cx_availability : list (string * DayView);   (** the dict, in insertion order *)
  cx_success_message : option string
}.

Section GetContext.

(** As for [save_availability]: the value compared on [day_of_week]. *)
Variable db_key : json -> string.

(** [frappe.db.exists(...)] and, when found, [frappe.get_doc(...)]. *)
Definition day_view (user : string) (db : list UADoc) (day : string) : DayView :=
  match db_exists db_key user (JStr day) db with
  | Some doc => mkDayView (Some (ua_name doc)) (ua_is_available doc) (ua_time_slots doc)
  | None => empty_view
  end.

(** [get_context(context)]: [db] is [None] when the queries raise (the
    doctype is missing), which the [except] turns into empty entries;
    [form_success] is [frappe.form_dict.get("success")]. *)
Definition get_context (user : string) (db : option (list UADoc)) (form_success : json)
  : result Context :=
  if String.eqb user "Guest" then
    Err (permission_error "You need to be logged in to access this page")
  else
    let availability :=
      match db with
      | Some d => map (fun day => (day, day_view user d day)) days_of_week
      | None => map (fun day => (day, empty_view)) days_of_week
      end in
    Ok (mkContext user days_of_week availability
          (if truthy form_success
           then Some "Your availability settings have been saved successfully!" else None)).

End GetContext.

End AvailabilityPage.

(** ** Properties stated by the specification *)

(** A slot is taken when a Pending or Confirmed booking of either record
    set sharing the calendar has its date and start time. *)
Definition taken (bs : list Booking) (date tod : Z) : Prop :=
  exists b, In b bs /\
    (bk_doctype b = "Appointment Booking" \/ bk_doctype b = "Video Production Appointment") /\
    bk_date b = date /\ bk_time b = tod /\
    (bk_status b = "Pending" \/ bk_status b = "Confirmed").


Definition slot_lt (a b : Slot) : Prop :=
  slot_date a < slot_date b \/ (slot_date a = slot_date b /\ slot_from a < slot_from b).

(** The weekday a row of [Appointment Booking Slots] is grouped under. *)
Definition row_day (r : SlotRow) : option string :=
  option_map (fun d => normalize_day (py_strip d)) (day_of_week r).



(** [data.get(k)] on a JSON object payload. *)
Definition payload_get (kvs : list (string * json)) (k : string) : json :=
  match assoc k kvs with Some v => v | None => JNull end.

(** The required fields of a booking request, in the order of the
    specification (name, phone, email, service(s), location, date, time),
    each with the message that names it. *)
Definition required_fields : list (string * string) :=
  [("customer_name", "Customer Name is required");
   ("phone_number", "Phone Number is required");
   ("email", "Email is required");
   ("selected_services", "Please select at least one service");
   ("meeting_location", "Meeting Location is required");
   ("booking_date", "Booking Date is required");
   ("booking_time", "Booking Time is required")].

(** The message of the first required field the payload lacks. *)
Fixpoint first_missing (kvs : list (string * json)) (fields : list (string * string))
  : option string :=
  match fields with
  | [] => None
  | (k, msg) :: rest =>
      if truthy (payload_get kvs k) then first_missing kvs rest else Some msg
  end.

(** The order of checks the specification describes: the presence of each
    required field in turn, with the email's form checked right after its
    presence; the exception of the first check that fails. *)
Fixpoint first_failing (validate_email_address : json -> option PyExc)
  (kvs : list (string * json)) (fields : list (string * string)) : option PyExc :=
  match fields with
  | [] => None
  | (k, msg) :: rest =>
      if truthy (payload_get kvs k) then
        if String.eqb k "email" then
          match validate_email_address (payload_get kvs k) with
          | Some e => Some e
          | None => first_failing validate_email_address kvs rest
          end
        else first_failing validate_email_address kvs rest
      else Some (validation_error msg)
  end.

(** ** Example inputs *)

Module Examples.

(** 2025-01-06, a Monday. *)
Definition monday_2025_01_06 : Z := 739257.

Definition hm (h m : Z) : Z := h * 3600 + m * 60.

(** Midnight at the start of that Monday, and an hour earlier. *)
Definition monday_midnight : Z := monday_2025_01_06 * day_seconds.
Definition sunday_late : Z := monday_midnight - 3600.

(** [book_appointment.py]: scheduling enabled, slots of [dur] minutes, one
    day of advance booking, today that Monday and the clock at [nw]. *)
Definition ab_env (dur : Z) (rows : list SlotRow) (bs : list Booking) (nw : Z) : Env :=
  mkEnv (Some (mkABSettings 1 dur 1)) None (Some rows) None None (Some bs)
    monday_2025_01_06 nw.

(** [book-appointment.py]: Monday the only working day, active services of
    the given durations. *)
Definition page_env (st et : option (Z * Z)) (durs : list Z) (bs : list Booking) (nw : Z) : Env :=
  mkEnv None None None (Some (mkAppSettings st et 0 true false false false false false false))
    (Some durs) (Some bs) monday_2025_01_06 nw.

Definition monday_row (f t : Z) : SlotRow := mkSlotRow (Some "Monday") (Some f) (Some t).

Definition mon_slot (f t : Z) : Slot := mkSlot monday_2025_01_06 "Monday" f t.

(** A Pending video-production booking on that Monday at 09:00. *)
Definition video_booking_9am : Booking :=
  mkBooking "Video Production Appointment" monday_2025_01_06 (hm 9 0) "Pending".

(** A Pending appointment on that Monday at 09:00. *)
Definition booking_9am : Booking :=
  mkBooking "Appointment Booking" monday_2025_01_06 (hm 9 0) "Pending".

(** A slot row whose [day_of_week] is NULL. *)
Definition null_day_row : SlotRow := mkSlotRow None (Some (hm 9 0)) (Some (hm 10 0)).

(** Hooks of [create_appointment] that accept everything. *)
Definition accept_email (_ : json) : option PyExc := None.
(** [validate_email_address] refusing every address. *)
Definition reject_email (v : json) : option PyExc :=
  Some (validation_error "mariam@ is not a valid Email Address").
Definition loads_empty (_ : string) : result json := Ok (JList []).
Definition no_company_location : result json := Ok JNull.
Definition insert_ok {A} (_ : A) : option PyExc := None.
Definition insert_fails {A} (_ : A) : option PyExc := Some db_error.
Definition apt_name {A} (db : list A) : string := "APT-2025-" ++ Intake.z_str (Z.of_nat (length db)).

(** A complete booking request. *)
Definition full_payload : json :=
  JObj [("customer_name", JStr "Mariam"); ("phone_number", JStr "+97455501234");
        ("email", JStr "mariam@example.com"); ("selected_services", JList [JStr "Consultation"]);
        ("meeting_location", JStr "Company Location"); ("booking_date", JStr "2025-01-06");
        ("booking_time", JStr "09:00:00")].

(** A Current Active Client appointment, scheduled on [date]. *)
Definition client_doc (date : json) : VideoProduction.VDoc :=
  VideoProduction.mkVDoc (JStr "Directlines") (JStr "Mariam") (JStr "+97455501234")
    (JStr "mariam@example.com") (JStr "Current Active Client") date (JStr "09:00:00")
    "Pending" JNull JNull JNull JNull JNull JNull (JStr "Acme") (JInt 1) (JStr "")
    (JStr "Customer Location") (JStr "") (JStr "") (JStr "") (JStr "") (JStr "")
    JNull JNull JNull JNull.

(** A video-production request from a current client, with the given
    company entries. *)
Definition client_payload (company : list (string * json)) : list (string * json) :=
  [("customer_name", JStr "Mariam"); ("phone_number", JStr "+97455501234");
   ("email", JStr "mariam@example.com"); ("appointment_type", JStr "Current Active Client");
   ("meeting_location", JStr "Customer Location"); ("booking_date", JStr "2025-01-06");
   ("booking_time", JStr "09:00:00"); ("brand_name", JStr "Acme");
   ("acknowledgment_checkbox", JInt 1)] ++ company.

(** Hooks of [save_availability]: the day column compared as text. *)
Definition day_key (v : json) : string := match v with JStr s => s | _ => "" end.
Definition cint_zero (_ : string) : Z := 0.
(** A name longer than every name in use. *)
Definition ua_name_of (db : list Availability.UADoc) : string :=
  fold_right String.append "UA" (map Availability.ua_name db).

(** Monday sent twice: first off, then on from 09:00 to 12:00. *)
Definition monday_off : json := JObj [("day", JStr "Monday"); ("is_available", JInt 0)].
Definition monday_on : json :=
  JObj [("day", JStr "Monday"); ("is_available", JInt 1);
        ("time_slots", JList [JObj [("from_time", JStr "09:00:00"); ("to_time", JStr "12:00:00")]])].

End Examples.

(** *** Slot generation of [book_appointment.py] *)

Module BookAppointmentFacts.
Import BookAppointment.

Lemma db_count_nonneg : forall env dt date tod n,
  db_count env dt date tod = Ret n -> 0 <= n.
Proof.
  unfold db_count; intros env dt date tod n H.
  destruct (bookings env); inversion H; lia.
Qed.

Lemma db_count_zero : forall env dt date tod bs,
  db_count env dt date tod = Ret 0 -> bookings env = Some bs ->
  forall b, In b bs -> booking_matches dt date tod b = false.
Proof.
  unfold db_count; intros env dt date tod bs H Hb b Hin.
  rewrite Hb in H. injection H as H.
  destruct (booking_matches dt date tod b) eqn:E; [|reflexivity].
  assert (In b (filter (booking_matches dt date tod) bs)) by (apply filter_In; auto).
  destruct (filter (booking_matches dt date tod) bs); [contradiction|simpl in H; lia].
Qed.

Lemma booking_matches_true : forall dt date tod b,
  booking_matches dt date tod b = true <->
  bk_doctype b = dt /\ bk_date b = date /\ bk_time b = tod /\
  (bk_status b = "Pending" \/ bk_status b = "Confirmed").
Proof.
  intros dt date tod b. unfold booking_matches, active_status.
  rewrite !andb_true_iff, orb_true_iff, !String.eqb_eq, !Z.eqb_eq. tauto.
Qed.

Lemma is_booked_false : forall env date tod bs,
  is_booked env date tod = Ret false -> bookings env = Some bs -> ~ taken bs date tod.
Proof.
  unfold is_booked; intros env date tod bs H Hb [b [Hin [Hdt [Hd [Ht Hs]]]]].
  destruct (db_count env "Appointment Booking" date tod) as [n1| |] eqn:E1; try discriminate.
  simpl in H. pose proof (db_count_nonneg _ _ _ _ _ E1).
  destruct (0 <? n1) eqn:L1; [discriminate|].
  destruct (db_count env "Video Production Appointment" date tod) as [n2| |] eqn:E2;
    try discriminate.
  simpl in H. injection H as H. pose proof (db_count_nonneg _ _ _ _ _ E2).
  apply Z.ltb_ge in L1. apply Z.ltb_ge in H.
  assert (n1 = 0) by lia. assert (n2 = 0) by lia. subst n1 n2.
  destruct Hdt as [Hdt|Hdt].
  - pose proof (db_count_zero _ _ _ _ _ E1 Hb b Hin) as Z1.
    rewrite <- Bool.not_true_iff_false, booking_matches_true in Z1. tauto.
  - pose proof (db_count_zero _ _ _ _ _ E2 Hb b Hin) as Z2.
    rewrite <- Bool.not_true_iff_false, booking_matches_true in Z2. tauto.
Qed.

Lemma is_booked_true : forall env date tod bs,
  is_booked env date tod = Ret true -> bookings env = Some bs -> taken bs date tod.
Proof.
  unfold is_booked, db_count; intros env date tod bs H Hb. rewrite Hb in H. simpl in H.
  destruct (0 <? _) eqn:L1.
  - apply Z.ltb_lt in L1.
    destruct (filter (booking_matches "Appointment Booking" date tod) bs) as [|b r] eqn:F;
      [simpl in L1; lia|].
    assert (In b (filter (booking_matches "Appointment Booking" date tod) bs))
      by (rewrite F; left; reflexivity).
    apply filter_In in H0 as [Hin Hm]. apply booking_matches_true in Hm.
    exists b; intuition.
  - simpl in H. injection H as H. apply Z.ltb_lt in H.
    destruct (filter (booking_matches "Video Production Appointment" date tod) bs) as [|b r] eqn:F;
      [simpl in H; lia|].
    assert (In b (filter (booking_matches "Video Production Appointment" date tod) bs))
      by (rewrite F; left; reflexivity).
    apply filter_In in H0 as [Hin Hm]. apply booking_matches_true in Hm.
    exists b; intuition.
Qed.

End BookAppointmentFacts.

Lemma concat_map_out_ret : forall {A B} (f : A -> outcome (list B)) l out,
  concat_map_out f l = Ret out ->
  exists yss, Forall2 (fun x ys => f x = Ret ys) l yss /\ out = concat yss.
Proof.
  intros A B f l. induction l as [|x l IH]; simpl; intros out H.
  - injection H as <-. exists []. split; [constructor|reflexivity].
  - destruct (f x) as [ys| |] eqn:E; try discriminate. simpl in H.
    destruct (concat_map_out f l) as [zs| |] eqn:E'; try discriminate. simpl in H.
    injection H as <-. destruct (IH zs eq_refl) as [yss [H1 H2]].
    exists (ys :: yss). split; [constructor; auto|simpl; congruence].
Qed.

Lemma StronglySorted_app : forall {A} (R : A -> A -> Prop) l1 l2,
  StronglySorted R l1 -> StronglySorted R l2 ->
  (forall x y, In x l1 -> In y l2 -> R x y) -> StronglySorted R (l1 ++ l2).
Proof.
  intros A R l1 l2 H1. induction H1 as [|a l1 H1 IH Ha]; simpl; intros H2 H12; auto.
  constructor.
  - apply IH; [assumption|]. intros x y Hx Hy. apply H12; simpl; auto.
  - apply Forall_app. split; auto.
    apply Forall_forall. intros y Hy. apply H12; simpl; auto.
Qed.

Lemma StronglySorted_concat : forall {A} (R : A -> A -> Prop) yss,
  Forall (StronglySorted R) yss ->
  ForallOrdPairs (fun a b => forall x y, In x a -> In y b -> R x y) yss ->
  StronglySorted R (concat yss).
Proof.
  intros A R yss H1 H2. induction H2 as [|a yss Ha H2 IH]; simpl.
  - constructor.
  - inversion H1 as [|? ? Hs Hr]; subst. apply StronglySorted_app; auto.
    intros x y Hx Hy. apply in_concat in Hy as [b [Hb Hy]].
    rewrite Forall_forall in Ha. eapply Ha; eauto.
Qed.

Lemma mod_in_day : forall date c,
  date * day_seconds <= c < date * day_seconds + day_seconds ->
  c mod day_seconds = c - date * day_seconds.
Proof.
  intros date c H. unfold day_seconds in *.
  rewrite (Z.mod_unique c 86400 date (c - date * 86400)); lia.
Qed.

Lemma Forall2_in_right : forall {A B} (P : A -> B -> Prop) l l' y,
  Forall2 P l l' -> In y l' -> exists x, In x l /\ P x y.
Proof.
  intros A B P l l' y H. induction H as [|x y' l l' Hp H IH]; simpl; [tauto|].
  intros [<-|Hy]; [exists x; auto|].
  destruct (IH Hy) as [x' [Hx' Hp']]. exists x'; auto.
Qed.

Lemma concat_sorted_by_key : forall {A B} (f : A -> outcome (list B))
    (Rx : A -> A -> Prop) (R : B -> B -> Prop) l yss,
  Forall2 (fun x ys => f x = Ret ys) l yss ->
  StronglySorted Rx l ->
  (forall x ys, In x l -> f x = Ret ys -> StronglySorted R ys) ->
  (forall x1 x2 ys1 ys2 a b, Rx x1 x2 -> f x1 = Ret ys1 -> f x2 = Ret ys2 ->
     In a ys1 -> In b ys2 -> R a b) ->
  StronglySorted R (concat yss).
Proof.
  intros A B f Rx R l yss H. induction H as [|x ys l yss Hx H IH]; intros Hs Hin Hcross.
  - constructor.
  - simpl. inversion Hs as [|? ? Hs' Hfa]; subst.
    apply StronglySorted_app.
    + eapply Hin; [left; reflexivity|exact Hx].
    + apply IH; auto. intros x' ys' Hx'. apply Hin. right; exact Hx'.
    + intros a b Ha Hb. apply in_concat in Hb as [ys2 [Hys2 Hb]].
      destruct (Forall2_in_right _ _ _ _ H Hys2) as [x2 [Hx2 Hf2]].
      rewrite Forall_forall in Hfa.
      eapply Hcross; [apply Hfa; exact Hx2|exact Hx|exact Hf2|exact Ha|exact Hb].
Qed.

Module BookAppointmentSweep.
Import BookAppointment.

Lemma sweep_sound : forall fuel env date dn dur cur end_dt out,
  sweep fuel env date dn dur cur end_dt = Ret out ->
  forall s, In s out -> exists k : nat,
    0 < dur /\ cur + Z.of_nat k * dur + dur <= end_dt /\
    now env - 5 * 60 <= cur + Z.of_nat k * dur /\
    is_booked env date ((cur + Z.of_nat k * dur) mod day_seconds) = Ret false /\
    s = mkSlot date dn ((cur + Z.of_nat k * dur) mod day_seconds)
          ((cur + Z.of_nat k * dur + dur) mod day_seconds).
Proof.
  induction fuel as [|fuel IH]; simpl; intros env date dn dur cur end_dt out H s Hs.
  - injection H as <-. contradiction.
  - destruct (cur + dur <=? end_dt) eqn:C; [|injection H as <-; contradiction].
    apply Z.leb_le in C.
    destruct (dur <=? 0) eqn:D; [discriminate|]. apply Z.leb_gt in D.
    destruct (cur <? now env - 300) eqn:P.
    + destruct (IH _ _ _ _ _ _ _ H s Hs) as [k Hk].
      exists (S k). rewrite Nat2Z.inj_succ.
      replace (cur + Z.succ (Z.of_nat k) * dur) with (cur + dur + Z.of_nat k * dur) by lia.
      exact Hk.
    + apply Z.ltb_ge in P.
      destruct (is_booked env date (cur mod day_seconds)) as [b| |] eqn:B; try discriminate.
      simpl in H.
      destruct (sweep fuel env date dn dur (cur + dur) end_dt) as [rest| |] eqn:R;
        try discriminate.
      simpl in H.
      assert (Hrest : In s rest -> exists k : nat,
        0 < dur /\ cur + Z.of_nat k * dur + dur <= end_dt /\
        now env - 5 * 60 <= cur + Z.of_nat k * dur /\
        is_booked env date ((cur + Z.of_nat k * dur) mod day_seconds) = Ret false /\
        s = mkSlot date dn ((cur + Z.of_nat k * dur) mod day_seconds)
              ((cur + Z.of_nat k * dur + dur) mod day_seconds)).
      { intro Hin. destruct (IH _ _ _ _ _ _ _ R s Hin) as [k Hk].
        exists (S k). rewrite Nat2Z.inj_succ.
        replace (cur + Z.succ (Z.of_nat k) * dur) with (cur + dur + Z.of_nat k * dur) by lia.
        exact Hk. }
      destruct b; injection H as <-; [now apply Hrest|].
      destruct Hs as [<-|Hs]; [|now apply Hrest].
      exists 0%nat. simpl. rewrite !Z.add_0_r. auto.
Qed.

(** With a positive duration and enough fuel the loop reaches its end. *)
Lemma sweep_total : forall fuel env date dn dur cur end_dt bs,
  0 < dur -> bookings env = Some bs -> end_dt - cur < Z.of_nat fuel ->
  exists out, sweep fuel env date dn dur cur end_dt = Ret out.
Proof.
  induction fuel as [|fuel IH]; simpl; intros env date dn dur cur end_dt bs Hd Hb Hf.
  - destruct (cur + dur <=? end_dt) eqn:C; [apply Z.leb_le in C; lia|eauto].
  - destruct (cur + dur <=? end_dt) eqn:C; [|eauto]. apply Z.leb_le in C.
    destruct (dur <=? 0) eqn:D; [apply Z.leb_le in D; lia|].
    destruct (IH env date dn dur (cur + dur) end_dt bs Hd Hb ltac:(lia)) as [rest R].
    rewrite R.
    destruct (cur <? now env - 300); [eauto|].
    unfold is_booked, db_count. rewrite Hb. simpl.
    destruct (0 <? _); simpl; [|destruct (0 <? _)]; simpl; eauto.
Qed.

Lemma sweep_bounds : forall fuel env date dn dur cur end_dt out,
  sweep fuel env date dn dur cur end_dt = Ret out ->
  date * day_seconds <= cur -> end_dt < date * day_seconds + day_seconds ->
  forall s, In s out ->
    slot_date s = date /\ slot_day s = dn /\
    cur <= slot_start s /\ slot_start s + dur <= end_dt /\ 0 < dur /\
    now env - 5 * 60 <= slot_start s /\
    slot_from s = slot_start s - date * day_seconds /\
    slot_to s = slot_from s + dur /\
    is_booked env date (slot_from s) = Ret false.
Proof.
  intros fuel env date dn dur cur end_dt out H Hlo Hhi s Hs.
  destruct (sweep_sound _ _ _ _ _ _ _ _ H s Hs) as [k [Hd [Hend [Hnow [Hb ->]]]]].
  pose proof (Zle_0_nat k).
  assert (Hk : 0 <= Z.of_nat k * dur) by nia.
  rewrite (mod_in_day date (cur + Z.of_nat k * dur)) in * by (unfold day_seconds in *; lia).
  rewrite (mod_in_day date (cur + Z.of_nat k * dur + dur)) by (unfold day_seconds in *; lia).
  unfold slot_start; simpl. repeat split; auto; lia.
Qed.

Lemma sweep_sorted : forall fuel env date dn dur cur end_dt out,
  sweep fuel env date dn dur cur end_dt = Ret out ->
  date * day_seconds <= cur -> end_dt < date * day_seconds + day_seconds ->
  StronglySorted slot_lt out.
Proof.
  induction fuel as [|fuel IH]; intros env date dn dur cur end_dt out H Hlo Hhi.
  - simpl in H. injection H as <-. constructor.
  - pose proof (sweep_bounds _ _ _ _ _ _ _ _ H Hlo Hhi) as Hall.
    simpl in H.
    destruct (cur + dur <=? end_dt) eqn:C; [|injection H as <-; constructor].
    apply Z.leb_le in C.
    destruct (dur <=? 0) eqn:D; [discriminate|]. apply Z.leb_gt in D.
    destruct (cur <? now env - 300).
    + eapply IH; eauto; lia.
    + destruct (is_booked env date (cur mod day_seconds)) as [b| |]; try discriminate.
      simpl in H.
      destruct (sweep fuel env date dn dur (cur + dur) end_dt) as [rest| |] eqn:R;
        try discriminate.
      simpl in H.
      assert (Srest : StronglySorted slot_lt rest) by (eapply IH; eauto; lia).
      destruct b; injection H as <-; [exact Srest|].
      constructor; [exact Srest|].
      apply Forall_forall. intros y Hy.
      destruct (sweep_bounds _ _ _ _ _ _ _ _ R ltac:(lia) Hhi y Hy)
        as [Hyd [_ [Hy1 [_ [_ [_ [Hyf _]]]]]]].
      right. simpl. rewrite (mod_in_day date) by (unfold day_seconds in *; lia).
      split; [auto|lia].
Qed.

Lemma range_slots_facts : forall env date dn dur r out,
  range_slots env date dn dur r = Ret out ->
  StronglySorted slot_lt out /\
  forall s, In s out -> exists f t, r = (Some f, Some t) /\
    slot_date s = date /\ slot_day s = dn /\ f <= slot_from s /\ slot_from s < t /\
    0 <= slot_from s /\ slot_from s < day_seconds /\
    slot_start s = date * day_seconds + slot_from s /\
    now env - 5 * 60 <= slot_start s /\ slot_to s = slot_from s + dur /\
    is_booked env date (slot_from s) = Ret false.
Proof.
  unfold range_slots; intros env date dn dur r out H.
  destruct r as [[f|] [t|]];
    try (injection H as <-; split; [constructor|intros s []]).
  destruct (td_truthy (Some f) && td_truthy (Some t));
    [|injection H as <-; split; [constructor|intros s []]].
  unfold parse_time in H.
  destruct ((0 <=? f) && (f <? day_seconds)) eqn:Hf; [|discriminate].
  destruct ((0 <=? t) && (t <? day_seconds)) eqn:Ht; [|discriminate].
  cbn [bind] in H. rewrite andb_true_iff, Z.leb_le, Z.ltb_lt in Hf, Ht.
  assert (Hlo : date * day_seconds <= date * day_seconds + f) by lia.
  assert (Hhi : date * day_seconds + t < date * day_seconds + day_seconds) by lia.
  split; [eapply sweep_sorted; eauto|].
  intros s Hs.
  destruct (sweep_bounds _ _ _ _ _ _ _ _ H Hlo Hhi s Hs)
    as [Hd [Hn [H1 [H2 [H3 [H4 [H5 [H6 H7]]]]]]]].
  exists f, t. unfold slot_start in *. rewrite Hd in *.
  repeat split; auto; lia.
Qed.

Lemma day_slots_in : forall env by_day dur date out,
  day_slots env by_day dur date = Ret out ->
  forall s, In s out ->
    slot_date s = date /\ 0 <= slot_from s < day_seconds /\
    slot_start s = date * day_seconds + slot_from s /\
    now env - 5 * 60 <= slot_start s /\
    is_booked env date (slot_from s) = Ret false.
Proof.
  unfold day_slots; intros env by_day dur date out H s Hs.
  destruct (lookup_day by_day (weekday_name date)) as [ranges|];
    [|injection H as <-; contradiction].
  destruct (concat_map_out_ret _ _ _ H) as [yss [Hf ->]].
  apply in_concat in Hs as [ys [Hys Hs]].
  destruct (Forall2_in_right _ _ _ _ Hf Hys) as [r [_ Hr]].
  destruct (range_slots_facts _ _ _ _ _ _ Hr) as [_ Hall].
  destruct (Hall s Hs) as [f [t [_ [Hd [_ [_ [_ [H0 [H1 [Hst [Hnow [_ Hb]]]]]]]]]]]].
  repeat split; assumption.
Qed.



Lemma lookup_add_range : forall m day r k,
  lookup_day (add_range m day r) k =
  if String.eqb day k then
    Some (match lookup_day m k with Some rs => (rs ++ [r])%list | None => [r] end)
  else lookup_day m k.
Proof.
  induction m as [|[d rs] m IH]; intros day r k; simpl.
  - destruct (String.eqb day k); reflexivity.
  - destruct (String.eqb_spec d day) as [->|Hne]; simpl.
    + destruct (String.eqb day k); reflexivity.
    + rewrite IH. destruct (String.eqb_spec d k) as [->|Hdk];
        destruct (String.eqb_spec day k) as [->|Hk]; congruence.
Qed.


Lemma dates_sorted : forall t a n,
  StronglySorted Z.lt (map (fun i => t + Z.of_nat i) (seq a n)).
Proof.
  intros t a n. revert a. induction n as [|n IH]; intro a; simpl; constructor; [apply IH|].
  apply Forall_forall. intros y Hy. apply in_map_iff in Hy as [i [<- Hi]].
  apply in_seq in Hi. lia.
Qed.

(** Unfolding [get_time_slots_body] down to its loop over the days. *)
Lemma body_days : forall env out,
  get_time_slots_body env = Ret out ->
  out = [] \/
  exists s rows by_day, settings_lookup env = Some s /\ ab_slot_rows env = Some rows /\
    group_rows rows [] = Ret by_day /\
    concat_map_out (day_slots env by_day (or_default (appointment_duration s) 60 * 60))
      (map (fun i => today env + Z.of_nat i)
         (seq 0 (Z.to_nat (or_default (advance_booking_days s) 7)))) = Ret out.
Proof.
  unfold get_time_slots_body; intros env out H.
  destruct (settings_lookup env) as [s|]; [|injection H as <-; left; reflexivity].
  destruct (enable_scheduling s =? 0); [injection H as <-; left; reflexivity|].
  destruct (ab_slot_rows env) as [rows|] eqn:Hr; [|discriminate].
  destruct rows as [|row rows']; [injection H as <-; left; reflexivity|].
  destruct (group_rows (row :: rows') []) as [by_day| |] eqn:Hg; try discriminate.
  cbn [bind] in H.
  destruct by_day as [|b bs]; [injection H as <-; left; reflexivity|].
  right. exists s, (row :: rows'), (b :: bs). auto.
Qed.

Lemma body_in : forall env out,
  get_time_slots_body env = Ret out ->
  forall sl, In sl out ->
    0 <= slot_from sl < day_seconds /\
    slot_start sl = slot_date sl * day_seconds + slot_from sl /\
    now env - 5 * 60 <= slot_start sl /\
    is_booked env (slot_date sl) (slot_from sl) = Ret false.
Proof.
  intros env out H sl Hin.
  destruct (body_days env out H) as [->|[s [rows [by_day [_ [_ [_ Hc]]]]]]];
    [contradiction|].
  destruct (concat_map_out_ret _ _ _ Hc) as [yss [Hf ->]].
  apply in_concat in Hin as [ys [Hys Hin]].
  destruct (Forall2_in_right _ _ _ _ Hf Hys) as [date [_ Hd]].
  destruct (day_slots_in _ _ _ _ _ Hd sl Hin) as [Hdate [H1 [H2 [H3 H4]]]].
  subst date. auto.
Qed.


End BookAppointmentSweep.

(** *** Slot generation of [book-appointment.py] *)

Module BookAppointmentPageSweep.
Import BookAppointmentPage.

Lemma page_sweep_sound : forall fuel env date dn dur cur end_dt out,
  sweep fuel env date dn dur cur end_dt = Ret out ->
  forall s, In s out -> exists k : nat,
    0 < dur /\ cur + Z.of_nat k * dur + dur <= end_dt /\
    now env < cur + Z.of_nat k * dur /\
    s = mkSlot date dn ((cur + Z.of_nat k * dur) mod day_seconds)
          ((cur + Z.of_nat k * dur + dur) mod day_seconds).
Proof.
  induction fuel as [|fuel IH]; simpl; intros env date dn dur cur end_dt out H s Hs.
  - injection H as <-. contradiction.
  - destruct (cur + dur <=? end_dt) eqn:C; [|injection H as <-; contradiction].
    apply Z.leb_le in C.
    destruct (dur =? 0) eqn:D0; [discriminate|].
    destruct (dur <? 0) eqn:D; [discriminate|].
    apply Z.eqb_neq in D0. apply Z.ltb_ge in D.
    assert (Hnext : forall rest, sweep fuel env date dn dur (cur + dur) end_dt = Ret rest ->
      In s rest -> exists k : nat,
      0 < dur /\ cur + Z.of_nat k * dur + dur <= end_dt /\
      now env < cur + Z.of_nat k * dur /\
      s = mkSlot date dn ((cur + Z.of_nat k * dur) mod day_seconds)
            ((cur + Z.of_nat k * dur + dur) mod day_seconds)).
    { intros rest R Hin. destruct (IH _ _ _ _ _ _ _ R s Hin) as [k Hk].
      exists (S k). rewrite Nat2Z.inj_succ.
      replace (cur + Z.succ (Z.of_nat k) * dur) with (cur + dur + Z.of_nat k * dur) by lia.
      exact Hk. }
    destruct (cur <=? now env) eqn:P; [now apply (Hnext out)|].
    apply Z.leb_gt in P.
    destruct (has_booking env date (cur mod day_seconds)) as [b| |]; try discriminate.
    cbn [bind] in H.
    destruct (sweep fuel env date dn dur (cur + dur) end_dt) as [rest| |] eqn:R;
      try discriminate.
    cbn [bind] in H.
    destruct b; injection H as <-; [now apply (Hnext rest)|].
    destruct Hs as [<-|Hs]; [|now apply (Hnext rest)].
    exists 0%nat. simpl. rewrite !Z.add_0_r. repeat split; auto; lia.
Qed.

Lemma page_sweep_bounds : forall fuel env date dn dur cur end_dt out,
  sweep fuel env date dn dur cur end_dt = Ret out ->
  date * day_seconds <= cur -> end_dt < date * day_seconds + day_seconds ->
  forall s, In s out ->
    slot_date s = date /\ cur <= slot_start s /\ slot_start s + dur <= end_dt /\
    now env < slot_start s /\ 0 <= slot_from s < day_seconds.
Proof.
  intros fuel env date dn dur cur end_dt out H Hlo Hhi s Hs.
  destruct (page_sweep_sound _ _ _ _ _ _ _ _ H s Hs) as [k [Hd [Hend [Hnow ->]]]].
  pose proof (Zle_0_nat k).
  assert (Hk : 0 <= Z.of_nat k * dur) by nia.
  unfold slot_start; simpl.
  rewrite (mod_in_day date (cur + Z.of_nat k * dur)) by (unfold day_seconds in *; lia).
  unfold day_seconds in *. repeat split; lia.
Qed.

Lemma page_sweep_sorted : forall fuel env date dn dur cur end_dt out,
  sweep fuel env date dn dur cur end_dt = Ret out ->
  date * day_seconds <= cur -> end_dt < date * day_seconds + day_seconds ->
  StronglySorted slot_lt out.
Proof.
  induction fuel as [|fuel IH]; intros env date dn dur cur end_dt out H Hlo Hhi.
  - simpl in H. injection H as <-. constructor.
  - simpl in H.
    destruct (cur + dur <=? end_dt) eqn:C; [|injection H as <-; constructor].
    apply Z.leb_le in C.
    destruct (dur =? 0) eqn:D0; [discriminate|].
    destruct (dur <? 0) eqn:D; [discriminate|].
    apply Z.eqb_neq in D0. apply Z.ltb_ge in D.
    destruct (cur <=? now env).
    + eapply IH; eauto; lia.
    + destruct (has_booking env date (cur mod day_seconds)) as [b| |]; try discriminate.
      cbn [bind] in H.
      destruct (sweep fuel env date dn dur (cur + dur) end_dt) as [rest| |] eqn:R;
        try discriminate.
      cbn [bind] in H.
      assert (Srest : StronglySorted slot_lt rest) by (eapply IH; eauto; lia).
      destruct b; injection H as <-; [exact Srest|].
      constructor; [exact Srest|].
      apply Forall_forall. intros y Hy.
      destruct (page_sweep_bounds _ _ _ _ _ _ _ _ R ltac:(lia) Hhi y Hy)
        as [Hyd [Hy1 [_ [_ Hyf]]]].
      right. simpl. unfold slot_start in Hy1.
      rewrite (mod_in_day date) by (unfold day_seconds in *; lia).
      split; [auto|]. rewrite Hyd in Hy1. lia.
Qed.

Lemma parse_hm_range : forall v d t,
  0 <= d < day_seconds -> parse_hm v d = Ret t -> 0 <= t < day_seconds.
Proof.
  unfold parse_hm; intros v d t Hd H. destruct v as [[h m]|]; [|congruence].
  destruct ((0 <=? h) && (h <? 24) && (0 <=? m) && (m <? 60)) eqn:E; [|discriminate].
  injection H as <-. rewrite !andb_true_iff, !Z.leb_le, !Z.ltb_lt in E.
  unfold day_seconds. lia.
Qed.

Lemma day_slots_facts : forall env days st et dur date out,
  0 <= st < day_seconds -> 0 <= et < day_seconds ->
  day_slots env days st et dur date = Ret out ->
  StronglySorted slot_lt out /\
  forall s, In s out -> slot_date s = date /\ now env < slot_start s.
Proof.
  unfold day_slots; intros env days st et dur date out Hst Het H.
  destruct (existsb (String.eqb (weekday_name date)) days);
    [|injection H as <-; split; [constructor|intros s []]].
  assert (Hlo : date * day_seconds <= date * day_seconds + st) by lia.
  assert (Hhi : date * day_seconds + et < date * day_seconds + day_seconds) by lia.
  split; [eapply page_sweep_sorted; eauto|].
  intros s Hs. destruct (page_sweep_bounds _ _ _ _ _ _ _ _ H Hlo Hhi s Hs) as [? [_ [_ [? _]]]].
  auto.
Qed.

Lemma body_facts : forall env out,
  get_time_slots_body env = Ret out ->
  StronglySorted slot_lt out /\ forall s, In s out -> now env < slot_start s.
Proof.
  unfold get_time_slots_body; intros env out H.
  destruct (app_settings env) as [s|]; [|discriminate].
  destruct (parse_hm (working_start_time s) (9 * 3600)) as [st| |] eqn:Hst; try discriminate.
  cbn [bind] in H.
  destruct (parse_hm (working_end_time s) (18 * 3600)) as [et| |] eqn:Het; try discriminate.
  cbn [bind] in H.
  destruct (slot_duration env s) as [dur| |]; try discriminate.
  cbn [bind] in H.
  apply parse_hm_range in Hst; [|unfold day_seconds; lia].
  apply parse_hm_range in Het; [|unfold day_seconds; lia].
  destruct (concat_map_out_ret _ _ _ H) as [yss [Hf ->]].
  split.
  - eapply concat_sorted_by_key; [exact Hf|apply BookAppointmentSweep.dates_sorted| |].
    + intros date ys _ Hd. exact (proj1 (day_slots_facts _ _ _ _ _ _ _ Hst Het Hd)).
    + intros d1 d2 ys1 ys2 a b Hlt H1 H2 Ha Hb.
      destruct (proj2 (day_slots_facts _ _ _ _ _ _ _ Hst Het H1) a Ha) as [Hda _].
      destruct (proj2 (day_slots_facts _ _ _ _ _ _ _ Hst Het H2) b Hb) as [Hdb _].
      left. lia.
  - intros sl Hin. apply in_concat in Hin as [ys [Hys Hin]].
    destruct (Forall2_in_right _ _ _ _ Hf Hys) as [date [_ Hd]].
    exact (proj2 (proj2 (day_slots_facts _ _ _ _ _ _ _ Hst Het Hd) sl Hin)).
Qed.

End BookAppointmentPageSweep.

(** *** [save_availability] *)

Module AvailabilityFacts.
Import Availability.

Lemma find_app_single : forall {A} (p : A -> bool) l x,
  find p (l ++ [x]) = match find p l with Some y => Some y | None => if p x then Some x else None end.
Proof.
  intros A p l x. induction l as [|a l IH]; simpl; [reflexivity|].
  destruct (p a); auto.
Qed.

Lemma find_split : forall {A} (p : A -> bool) l r,
  find p l = Some r ->
  exists l1 l2, l = (l1 ++ r :: l2)%list /\ Forall (fun x => p x = false) l1 /\ p r = true.
Proof.
  intros A p l r. induction l as [|a l IH]; simpl; [discriminate|].
  destruct (p a) eqn:Pa.
  - intros H. injection H as <-. exists [], l. auto.
  - intros H. destruct (IH H) as [l1 [l2 [-> [Hf Hr]]]].
    exists (a :: l1), l2. auto.
Qed.

Lemma find_skip : forall {A} (p : A -> bool) l1 l2,
  Forall (fun x => p x = false) l1 -> find p (l1 ++ l2) = find p l2.
Proof.
  intros A p l1 l2 H. induction H as [|a l1 Ha H IH]; simpl; [reflexivity|].
  rewrite Ha. exact IH.
Qed.

Lemma find_swap : forall {A} (p : A -> bool) l1 a b l2,
  p a = false -> p b = false ->
  find p (l1 ++ a :: l2) = find p (l1 ++ b :: l2).
Proof.
  intros A p l1 a b l2 Ha Hb. induction l1 as [|c l1 IH]; simpl.
  - rewrite Ha, Hb. reflexivity.
  - destruct (p c); auto.
Qed.

Lemma find_ext' : forall {A} (p q : A -> bool) l,
  (forall x, p x = q x) -> find p l = find q l.
Proof.
  intros A p q l H. induction l as [|a l IH]; simpl; [reflexivity|].
  rewrite H, IH. reflexivity.
Qed.

Section Facts.

Variable db_key : json -> string.
Variable cint_str : string -> Z.
Variable save_check : UADoc -> option PyExc.
Variable autoname : list UADoc -> string.
Hypothesis autoname_fresh : forall db, ~ In (autoname db) (map ua_name db).

Lemma db_update_split : forall l1 r l2 doc,
  NoDup (map ua_name (l1 ++ r :: l2)) -> ua_name doc = ua_name r ->
  db_update doc (l1 ++ r :: l2) = (l1 ++ doc :: l2)%list.
Proof.
  intros l1 r l2 doc Hnd Hn. unfold db_update.
  rewrite map_app in Hnd. simpl in Hnd.
  apply NoDup_remove_2 in Hnd. rewrite in_app_iff in Hnd.
  rewrite map_app. simpl. rewrite Hn, String.eqb_refl.
  f_equal; [|f_equal].
  - rewrite <- (map_id l1) at 2. apply map_ext_in. intros x Hx.
    destruct (String.eqb_spec (ua_name x) (ua_name r)) as [E|E]; [|reflexivity].
    exfalso. apply Hnd. left. rewrite <- E. apply in_map. exact Hx.
  - rewrite <- (map_id l2) at 2. apply map_ext_in. intros x Hx.
    destruct (String.eqb_spec (ua_name x) (ua_name r)) as [E|E]; [|reflexivity].
    exfalso. apply Hnd. right. rewrite <- E. apply in_map. exact Hx.
Qed.

Lemma matches_same_key : forall user d d' x,
  db_key d = db_key d' -> matches db_key user d x = matches db_key user d' x.
Proof. intros user d d' x H. unfold matches. rewrite H. reflexivity. Qed.

(** One round, seen from the record [frappe.db.exists] finds for a day. *)
Lemma save_day_facts : forall user e db db' d v ts dy,
  NoDup (map ua_name db) ->
  save_day db_key cint_str save_check autoname user e db = Ok db' ->
  py_get e "day" JNull = Ok d ->
  py_get e "is_available" (JInt 0) = Ok v ->
  py_get e "time_slots" (JList []) = Ok ts ->
  NoDup (map ua_name db') /\
  (db_key d = db_key dy ->
     exists r, db_exists db_key user dy db' = Some r /\
       ua_is_available r = check_value cint_str v /\ new_slots v ts = Ok (ua_time_slots r)) /\
  (db_key d <> db_key dy -> db_exists db_key user dy db' = db_exists db_key user dy db).
Proof.
  intros user e db db' d v ts dy Hnd H Hd Hv Hts.
  unfold save_day in H. rewrite Hd, Hv, Hts in H. cbn [rbind] in H.
  destruct (db_exists db_key user d db) as [r|] eqn:Hex.
  - destruct (new_slots v ts) as [slots|] eqn:Hs; [|discriminate]. cbn [rbind] in H.
    destruct (save_check _) as [|]; [discriminate|]. injection H as <-.
    unfold db_exists in Hex. destruct (find_split _ _ _ Hex) as [l1 [l2 [-> [Hl1 Hr]]]].
    rewrite db_update_split by auto.
    repeat split.
    + rewrite map_app in *. exact Hnd.
    + intros Hk. exists (mkUA (ua_name r) (ua_user r) (ua_day_of_week r) (check_value cint_str v) slots).
      split; [|auto].
      unfold db_exists. rewrite find_skip.
      * simpl. replace (matches db_key user dy _) with (matches db_key user d r)
          by (unfold matches; simpl; rewrite Hk; reflexivity).
        rewrite Hr. reflexivity.
      * eapply Forall_impl; [|exact Hl1]. intros x Hx. simpl in Hx.
        rewrite <- (matches_same_key user d dy x Hk). exact Hx.
    + intros Hk. unfold db_exists. apply find_swap.
      * unfold matches in *. simpl.
        apply andb_true_iff in Hr as [Hu Hday].
        rewrite Hu. simpl. apply String.eqb_neq. apply String.eqb_eq in Hday. congruence.
      * unfold matches in *.
        apply andb_true_iff in Hr as [Hu Hday].
        rewrite Hu. simpl. apply String.eqb_neq. apply String.eqb_eq in Hday. congruence.
  - destruct (new_slots v ts) as [slots|] eqn:Hs; [|discriminate]. cbn [rbind] in H.
    destruct (save_check _) as [|]; [discriminate|]. injection H as <-.
    repeat split.
    + rewrite map_app. simpl. apply NoDup_app; [exact Hnd|repeat constructor; auto|].
      intros x Hx [<-|[]]. exact (autoname_fresh db Hx).
    + intros Hk. exists (mkUA (autoname db) user d (check_value cint_str v) slots).
      split; [|auto].
      unfold db_exists in *. rewrite find_app_single.
      replace (find (matches db_key user dy) db) with (find (matches db_key user d) db).
      * rewrite Hex. unfold matches. simpl. rewrite String.eqb_refl, Hk, String.eqb_refl.
        reflexivity.
      * apply find_ext'. intro x. apply matches_same_key. exact Hk.
    + intros Hk. unfold db_exists. rewrite find_app_single.
      destruct (find (matches db_key user dy) db); [reflexivity|].
      unfold matches. simpl. rewrite String.eqb_refl. simpl.
      destruct (String.eqb_spec (db_key d) (db_key dy)); [contradiction|reflexivity].
Qed.

Lemma save_day_nodup : forall user e db db',
  NoDup (map ua_name db) ->
  save_day db_key cint_str save_check autoname user e db = Ok db' ->
  NoDup (map ua_name db').
Proof.
  intros user e db db' Hnd H.
  unfold save_day in H.
  destruct (py_get e "day" JNull) as [d|] eqn:Hd; [|discriminate].
  destruct (py_get e "is_available" (JInt 0)) as [v|] eqn:Hv; [|discriminate].
  destruct (py_get e "time_slots" (JList [])) as [ts|] eqn:Hts; [|discriminate].
  refine (proj1 (save_day_facts user e db db' d v ts d Hnd _ Hd Hv Hts)).
  unfold save_day. rewrite Hd, Hv, Hts. exact H.
Qed.

Lemma save_day_reads : forall user e db db',
  save_day db_key cint_str save_check autoname user e db = Ok db' ->
  exists d v ts, py_get e "day" JNull = Ok d /\ py_get e "is_available" (JInt 0) = Ok v /\
    py_get e "time_slots" (JList []) = Ok ts.
Proof.
  intros user e db db' H. unfold save_day in H.
  destruct (py_get e "day" JNull) as [d|]; [|discriminate].
  destruct (py_get e "is_available" (JInt 0)) as [v|]; [|discriminate].
  destruct (py_get e "time_slots" (JList [])) as [ts|]; [|discriminate].
  exists d, v, ts. auto.
Qed.

Lemma save_days_app : forall user l1 l2 db db',
  save_days db_key cint_str save_check autoname user (l1 ++ l2) db = (db', None) ->
  exists dbm, save_days db_key cint_str save_check autoname user l1 db = (dbm, None) /\
    save_days db_key cint_str save_check autoname user l2 dbm = (db', None).
Proof.
  intros user l1. induction l1 as [|e l1 IH]; intros l2 db db' H; simpl in *.
  - exists db. auto.
  - destruct (save_day _ _ _ _ user e db) as [dbm|ex]; [|discriminate].
    exact (IH l2 dbm db' H).
Qed.

Lemma save_days_nodup : forall user l db db',
  NoDup (map ua_name db) ->
  save_days db_key cint_str save_check autoname user l db = (db', None) ->
  NoDup (map ua_name db').
Proof.
  intros user l. induction l as [|e l IH]; intros db db' Hnd H; simpl in H.
  - injection H as <-. exact Hnd.
  - destruct (save_day _ _ _ _ user e db) as [dbm|ex] eqn:Hs; [|discriminate].
    exact (IH dbm db' (save_day_nodup user e db dbm Hnd Hs) H).
Qed.

Lemma save_days_other : forall user dy l db db',
  NoDup (map ua_name db) ->
  save_days db_key cint_str save_check autoname user l db = (db', None) ->
  (forall e d', In e l -> py_get e "day" JNull = Ok d' -> db_key d' <> db_key dy) ->
  db_exists db_key user dy db' = db_exists db_key user dy db.
Proof.
  intros user dy l. induction l as [|e l IH]; intros db db' Hnd H Hother; simpl in H.
  - injection H as <-. reflexivity.
  - destruct (save_day _ _ _ _ user e db) as [dbm|ex] eqn:Hs; [|discriminate].
    destruct (save_day_reads _ _ _ _ Hs) as [d [v [ts [Hd [Hv Hts]]]]].
    destruct (save_day_facts user e db dbm d v ts dy Hnd Hs Hd Hv Hts) as [Hnd' [_ Hoth]].
    rewrite (IH dbm db' Hnd' H).
    + apply Hoth. apply (Hother e d); simpl; auto.
    + intros e' d' Hin. apply Hother. simpl. auto.
Qed.

(** In a successful call the record for a day is the one the last entry
    naming that day wrote. *)
Lemma save_availability_last_entry : forall data user db resp db' pre e post d v ts,
  NoDup (map ua_name db) ->
  save_availability db_key cint_str save_check autoname data user db = (resp, db') ->
  success resp = true ->
  py_iter data = Ok (pre ++ e :: post)%list ->
  py_get e "day" JNull = Ok d ->
  py_get e "is_available" (JInt 0) = Ok v ->
  py_get e "time_slots" (JList []) = Ok ts ->
  (forall e' d', In e' post -> py_get e' "day" JNull = Ok d' -> db_key d' <> db_key d) ->
  exists r, db_exists db_key user d db' = Some r /\
    ua_is_available r = check_value cint_str v /\ new_slots v ts = Ok (ua_time_slots r).
Proof.
  intros data user db resp db' pre e post d v ts Hnd H Hsucc Hit Hd Hv Hts Hpost.
  unfold save_availability in H.
  destruct (String.eqb user "Guest"); [injection H as <- _; discriminate|].
  rewrite Hit in H.
  destruct (save_days _ _ _ _ user (pre ++ e :: post) db) as [dbf [ex|]] eqn:Hs;
    injection H as <- <-; [discriminate|].
  destruct (save_days_app _ _ _ _ _ Hs) as [dbm [Hpre Hrest]].
  pose proof (save_days_nodup _ _ _ _ Hnd Hpre) as Hndm.
  simpl in Hrest.
  destruct (save_day _ _ _ _ user e dbm) as [dbe|ex] eqn:He; [|discriminate].
  destruct (save_day_facts user e dbm dbe d v ts d Hndm He Hd Hv Hts) as [Hnde [Hsame _]].
  destruct (Hsame eq_refl) as [r [Hr Hrest']].
  exists r. split; [|exact Hrest'].
  rewrite (save_days_other user d post dbe dbf Hnde Hrest Hpost). exact Hr.
Qed.

Lemma falsy_cint : forall v, truthy v = false -> cint_str "" = 0 -> cint cint_str v = 0.
Proof.
  intros [| [] | z | s | l | kvs] Ht Hc; simpl in *; try discriminate; try reflexivity.
  - destruct (z =? 0) eqn:E; [|discriminate]. apply Z.eqb_eq. exact E.
  - destruct (String.eqb_spec s ""); [subst; exact Hc|discriminate].
Qed.

End Facts.

End AvailabilityFacts.

(** *** [book_appointment.py]'s [get_time_slots] always returns *)

Module BookAppointmentTotal.
Import BookAppointment.

Lemma bind_not_hang : forall {A B} (m : outcome A) (k : A -> outcome B),
  m <> Hang -> (forall a, m = Ret a -> k a <> Hang) -> bind m k <> Hang.
Proof.
  intros A B m k Hm Hk. destruct m as [a|e|]; cbn [bind].
  - apply Hk. reflexivity.
  - discriminate.
  - contradiction.
Qed.

Lemma concat_map_out_not_hang : forall {A B} (f : A -> outcome (list B)) l,
  (forall x, f x <> Hang) -> concat_map_out f l <> Hang.
Proof.
  intros A B f l Hf. induction l as [|x l IH]; simpl; [discriminate|].
  apply bind_not_hang; [apply Hf|]. intros ys _.
  apply bind_not_hang; [exact IH|]. intros zs _. discriminate.
Qed.

Lemma db_count_not_hang : forall env dt date tod, db_count env dt date tod <> Hang.
Proof. intros env dt date tod. unfold db_count. destruct (bookings env); discriminate. Qed.

Lemma is_booked_not_hang : forall env date tod, is_booked env date tod <> Hang.
Proof.
  intros env date tod. unfold is_booked.
  apply bind_not_hang; [apply db_count_not_hang|]. intros n1 _.
  destruct (0 <? n1); [discriminate|].
  apply bind_not_hang; [apply db_count_not_hang|]. intros n2 _. discriminate.
Qed.

Lemma sweep_not_hang : forall fuel env date dn dur cur end_dt,
  sweep fuel env date dn dur cur end_dt <> Hang.
Proof.
  induction fuel as [|fuel IH]; intros env date dn dur cur end_dt; simpl; [discriminate|].
  destruct (cur + dur <=? end_dt); [|discriminate].
  destruct (dur <=? 0); [discriminate|].
  destruct (cur <? now env - 300); [apply IH|].
  apply bind_not_hang; [apply is_booked_not_hang|]. intros b _.
  apply bind_not_hang; [apply IH|]. intros rest _.
  destruct b; discriminate.
Qed.

Lemma range_slots_not_hang : forall env date dn dur r, range_slots env date dn dur r <> Hang.
Proof.
  intros env date dn dur [[fv|] [tv|]]; unfold range_slots; try discriminate.
  destruct (td_truthy (Some fv) && td_truthy (Some tv)); [|discriminate].
  apply bind_not_hang; [unfold parse_time; destruct (_ && _); discriminate|]. intros f _.
  apply bind_not_hang; [unfold parse_time; destruct (_ && _); discriminate|]. intros t _.
  apply sweep_not_hang.
Qed.

Lemma group_rows_not_hang : forall rows m, group_rows rows m <> Hang.
Proof.
  induction rows as [|row rows IH]; intros m; simpl; [discriminate|].
  destruct (day_of_week row); [|discriminate].
  destruct (String.eqb _ ""); apply IH.
Qed.

Lemma body_not_hang : forall env, get_time_slots_body env <> Hang.
Proof.
  intros env. unfold get_time_slots_body.
  destruct (settings_lookup env) as [s|]; [|discriminate].
  destruct (enable_scheduling s =? 0); [discriminate|].
  destruct (ab_slot_rows env) as [[|row rows]|]; try discriminate.
  apply bind_not_hang; [apply group_rows_not_hang|]. intros by_day _.
  destruct by_day; [discriminate|].
  apply concat_map_out_not_hang. intros date. unfold day_slots.
  destruct (lookup_day _ _); [|discriminate].
  apply concat_map_out_not_hang. intros r. apply range_slots_not_hang.
Qed.

End BookAppointmentTotal.

(** *** From the body of [get_time_slots] to its result *)

Module Lifting.

Lemma ab_slots_some : forall env out,
  BookAppointment.get_time_slots env = Some out ->
  BookAppointment.get_time_slots_body env = Ret out \/ out = [].
Proof.
  intros env out H. unfold BookAppointment.get_time_slots in H.
  destruct (BookAppointment.get_time_slots_body env); injection H as <- || discriminate; auto.
Qed.

Lemma page_slots_some : forall env out,
  BookAppointmentPage.get_time_slots env = Some out ->
  BookAppointmentPage.get_time_slots_body env = Ret out \/ out = [].
Proof.
  intros env out H. unfold BookAppointmentPage.get_time_slots in H.
  destruct (BookAppointmentPage.get_time_slots_body env); injection H as <- || discriminate; auto.
Qed.

End Lifting.

(** *** Request intake *)

Module IntakeFacts.

Lemma py_get_obj : forall kvs k, py_get (JObj kvs) k JNull = Ok (payload_get kvs k).
Proof. intros kvs k. unfold py_get, payload_get. destruct (assoc k kvs); reflexivity. Qed.

Lemma rbind_ok_inv : forall {A B} (m : result A) (k : A -> result B) x,
  rbind m k = Ok x -> exists a, m = Ok a /\ k a = Ok x.
Proof. intros A B m k x H. destruct m as [a|e]; [exists a; auto|discriminate]. Qed.

End IntakeFacts.

Module VideoFacts.
Import VideoProduction.

Ltac peel H :=
  match type of H with
  | rbind _ _ = Ok _ =>
      let a := fresh "a" in let Ha := fresh "Ha" in let H' := fresh "H" in
      destruct (IntakeFacts.rbind_ok_inv _ _ _ H) as [a [Ha H']]; clear H;
      cbv beta in H'; rename H' into H
  end.

(** A successful request appends one document, whose company is what
    [check_company] made of the payload. *)
Lemma body_ok : forall vea ic an data db db' name,
  create_appointment_body vea ic an data db = Ok (db', name) ->
  exists doc, db' = (db ++ [doc])%list /\ check_company data = Ok (vd_company doc).
Proof.
  intros vea ic an data db db' name H. unfold create_appointment_body in H.
  repeat peel H.
  destruct (ic _) as [e|]; [discriminate|]. injection H as <- <-.
  eexists. split; [reflexivity|]. simpl.
  match goal with Hc : check_company data = Ok _ |- _ => exact Hc end.
Qed.

Lemma py_get_company : forall kvs,
  py_get (JObj kvs) "company" (JStr "Directlines") =
  Ok (match assoc "company" kvs with Some v => v | None => JStr "Directlines" end).
Proof. intros kvs. simpl. destruct (assoc "company" kvs); reflexivity. Qed.

Lemma check_company_ok : forall kvs c,
  check_company (JObj kvs) = Ok c ->
  ((assoc "company" kvs = None \/ assoc "company" kvs = Some (JStr "Direct Line") \/
    assoc "company" kvs = Some (JStr "Directlines")) -> c = JStr "Directlines") /\
  (assoc "company" kvs = Some (JStr "Easy AI") -> c = JStr "Easy AI").
Proof.
  intros kvs c H. unfold check_company in H. rewrite py_get_company in H. cbn [rbind] in H.
  split.
  - intros [E|[E|E]]; rewrite E in H; simpl in H; injection H as <-; reflexivity.
  - intros E. rewrite E in H. simpl in H. injection H as <-. reflexivity.
Qed.

Lemma check_company_invalid : forall kvs v,
  assoc "company" kvs = Some v ->
  is_str v "Easy AI" = false -> is_str v "Directlines" = false -> is_str v "Direct Line" = false ->
  check_company (JObj kvs) = Err (validation_error "Invalid company selected").
Proof.
  intros kvs v E H1 H2 H3. unfold check_company. rewrite py_get_company, E. cbn [rbind].
  rewrite H3, H2. simpl. rewrite H1, H2. reflexivity.
Qed.

End VideoFacts.

Module ExampleFacts.
Import Examples.

Lemma str_length_append : forall s1 s2,
  String.length (s1 ++ s2) = (String.length s1 + String.length s2)%nat.
Proof. induction s1 as [|c s1 IH]; intros s2; simpl; [reflexivity|]. rewrite IH. reflexivity. Qed.

Lemma fold_append_min : forall ns,
  (2 <= String.length (fold_right String.append "UA" ns))%nat.
Proof.
  induction ns as [|n ns IH]; simpl; [lia|]. rewrite str_length_append. lia.
Qed.

Lemma ua_name_of_longer : forall l x,
  In x (map Availability.ua_name l) -> (String.length x < String.length (ua_name_of l))%nat.
Proof.
  unfold ua_name_of. induction l as [|r l IH]; intros x Hin; simpl in *; [contradiction|].
  rewrite str_length_append. destruct Hin as [<-|Hin].
  - pose proof (fold_append_min (map Availability.ua_name l)). lia.
  - specialize (IH x Hin). lia.
Qed.

Lemma ua_name_of_fresh : forall l, ~ In (ua_name_of l) (map Availability.ua_name l).
Proof. intros l Hin. apply ua_name_of_longer in Hin. lia. Qed.

End ExampleFacts.

(** *** Which slots [book_appointment.py] offers *)

Module SlotCoverage.
Import BookAppointment.

Lemma is_booked_not_taken : forall env date tod bs,
  bookings env = Some bs -> ~ taken bs date tod -> is_booked env date tod = Ret false.
Proof.
  intros env date tod bs Hb Hn. unfold is_booked, db_count. rewrite Hb. cbn [bind].
  assert (E : forall dt, (dt = "Appointment Booking" \/ dt = "Video Production Appointment") ->
            filter (booking_matches dt date tod) bs = []).
  { intros dt Hdt. destruct (filter (booking_matches dt date tod) bs) as [|b l] eqn:Ef;
      [reflexivity|].
    exfalso. apply Hn.
    assert (Hin : In b (filter (booking_matches dt date tod) bs)) by (rewrite Ef; left; reflexivity).
    apply filter_In in Hin as [Hin Hm].
    apply BookAppointmentFacts.booking_matches_true in Hm as [H1 [H2 [H3 H4]]].
    exists b. split; [exact Hin|]. split; [rewrite H1; exact Hdt|]. auto. }
  rewrite (E _ (or_introl eq_refl)), (E _ (or_intror eq_refl)). reflexivity.
Qed.

Lemma concat_map_out_in : forall {A B} (f : A -> outcome (list B)) l out x,
  concat_map_out f l = Ret out -> In x l ->
  exists ys, f x = Ret ys /\ forall y, In y ys -> In y out.
Proof.
  intros A B f l. induction l as [|a l IH]; intros out x H Hx; [contradiction|].
  simpl in H. destruct (f a) as [ys| |] eqn:Ha; cbn [bind] in H; try discriminate.
  destruct (concat_map_out f l) as [zs| |] eqn:Hl; cbn [bind] in H; try discriminate.
  injection H as <-. destruct Hx as [<-|Hx].
  - exists ys. split; [exact Ha|]. intros y Hy. apply in_or_app. left. exact Hy.
  - destruct (IH zs x eq_refl Hx) as [ys' [Hx' Hin]].
    exists ys'. split; [exact Hx'|]. intros y Hy. apply in_or_app. right. auto.
Qed.

Lemma sweep_complete : forall k fuel env date dn dur cur end_dt out bs,
  sweep fuel env date dn dur cur end_dt = Ret out ->
  0 < dur -> end_dt - cur < Z.of_nat fuel -> bookings env = Some bs ->
  cur + Z.of_nat k * dur + dur <= end_dt ->
  now env - 5 * 60 <= cur + Z.of_nat k * dur ->
  ~ taken bs date ((cur + Z.of_nat k * dur) mod day_seconds) ->
  In (mkSlot date dn ((cur + Z.of_nat k * dur) mod day_seconds)
        ((cur + Z.of_nat k * dur + dur) mod day_seconds)) out.
Proof.
  induction k as [|k IH]; intros fuel env date dn dur cur end_dt out bs H Hd Hf Hb Hend Hnow Hnt.
  - destruct fuel as [|fuel]; [simpl in Hf; lia|].
    simpl in H. simpl Z.of_nat in *. rewrite Z.mul_0_l, Z.add_0_r in *.
    destruct (Z.leb_spec (cur + dur) end_dt); [|lia].
    destruct (Z.leb_spec dur 0); [lia|].
    destruct (Z.ltb_spec cur (now env - 300)); [lia|].
    rewrite (is_booked_not_taken env date _ bs Hb Hnt) in H. cbn [bind] in H.
    destruct (sweep fuel env date dn dur (cur + dur) end_dt); try discriminate.
    injection H as <-. left. reflexivity.
  - destruct fuel as [|fuel]; [simpl in Hf; lia|].
    assert (E : cur + Z.of_nat (S k) * dur = cur + dur + Z.of_nat k * dur) by lia.
    rewrite E in Hend, Hnow, Hnt |- *.
    assert (Hrec : forall rest, sweep fuel env date dn dur (cur + dur) end_dt = Ret rest ->
      In (mkSlot date dn ((cur + dur + Z.of_nat k * dur) mod day_seconds)
            ((cur + dur + Z.of_nat k * dur + dur) mod day_seconds)) rest).
    { intros rest Hr. apply (IH fuel env date dn dur (cur + dur) end_dt rest bs Hr Hd);
        auto; lia. }
    simpl in H.
    destruct (Z.leb_spec (cur + dur) end_dt); [|nia].
    destruct (Z.leb_spec dur 0); [lia|].
    destruct (Z.ltb_spec cur (now env - 300)); [exact (Hrec out H)|].
    destruct (is_booked env date (cur mod day_seconds)) as [b| |]; cbn [bind] in H;
      try discriminate.
    destruct (sweep fuel env date dn dur (cur + dur) end_dt) as [rest| |] eqn:Hs;
      try discriminate.
    destruct b; injection H as <-; [|right]; exact (Hrec rest eq_refl).
Qed.

Lemma group_rows_keeps : forall rows m by_day k x,
  group_rows rows m = Ret by_day ->
  (exists rs, lookup_day m k = Some rs /\ In x rs) ->
  exists rs, lookup_day by_day k = Some rs /\ In x rs.
Proof.
  induction rows as [|row rows IH]; intros m by_day k x H Hm; simpl in H.
  - injection H as <-. exact Hm.
  - destruct (day_of_week row) as [raw|]; [|discriminate].
    destruct (String.eqb (py_strip raw) ""); [exact (IH _ _ _ _ H Hm)|].
    apply (IH _ _ _ _ H). destruct Hm as [rs [Hl Hx]].
    rewrite BookAppointmentSweep.lookup_add_range, Hl.
    destruct (String.eqb _ k); eexists; split; try reflexivity; auto.
    apply in_or_app. left. exact Hx.
Qed.

Lemma group_rows_complete : forall rows m by_day row raw,
  group_rows rows m = Ret by_day -> In row rows ->
  day_of_week row = Some raw -> py_strip raw <> "" ->
  exists rs, lookup_day by_day (normalize_day (py_strip raw)) = Some rs /\
    In (row_from_time row, row_to_time row) rs.
Proof.
  induction rows as [|a rows IH]; intros m by_day row raw H Hin Hd Hs; [contradiction|].
  simpl in H. destruct Hin as [->|Hin].
  - rewrite Hd in H. destruct (String.eqb_spec (py_strip raw) ""); [contradiction|].
    apply (group_rows_keeps _ _ _ _ _ H).
    rewrite BookAppointmentSweep.lookup_add_range, String.eqb_refl.
    eexists. split; [reflexivity|].
    destruct (lookup_day m _); [apply in_or_app; right|]; left; reflexivity.
  - destruct (day_of_week a) as [raw'|]; [|discriminate].
    destruct (String.eqb (py_strip raw') ""); eapply IH; eauto.
Qed.

Lemma group_rows_sound : forall rows m by_day k rs x,
  group_rows rows m = Ret by_day -> lookup_day by_day k = Some rs -> In x rs ->
  (exists rs0, lookup_day m k = Some rs0 /\ In x rs0) \/
  exists row, In row rows /\ row_day row = Some k /\ x = (row_from_time row, row_to_time row).
Proof.
  induction rows as [|row rows IH]; intros m by_day k rs x H Hl Hx; simpl in H.
  - injection H as <-. left. eauto.
  - destruct (day_of_week row) as [raw|] eqn:Hd; [|discriminate].
    destruct (String.eqb (py_strip raw) "").
    + destruct (IH _ _ _ _ _ H Hl Hx) as [Hm|[r [Hr Hrest]]]; [left; exact Hm|].
      right. exists r. split; [right; exact Hr|exact Hrest].
    + destruct (IH _ _ _ _ _ H Hl Hx) as [[rs0 [Hm Hin]]|[r [Hr Hrest]]].
      * rewrite BookAppointmentSweep.lookup_add_range in Hm.
        destruct (String.eqb_spec (normalize_day (py_strip raw)) k) as [Ek|Ek].
        -- destruct (lookup_day m k) as [old|] eqn:Hold.
           ++ injection Hm as <-. apply in_app_or in Hin as [Hin|[<-|[]]].
              ** left. eauto.
              ** right. exists row. split; [left; reflexivity|].
                 unfold row_day. rewrite Hd. simpl. rewrite Ek. auto.
           ++ injection Hm as <-. destruct Hin as [<-|[]].
              right. exists row. split; [left; reflexivity|].
              unfold row_day. rewrite Hd. simpl. rewrite Ek. auto.
        -- left. eauto.
      * right. exists r. split; [right; exact Hr|exact Hrest].
Qed.

Lemma group_rows_null : forall rows m row,
  In row rows -> day_of_week row = None -> exists e, group_rows rows m = Raise e.
Proof.
  induction rows as [|a rows IH]; intros m row Hin Hd; [contradiction|].
  simpl. destruct Hin as [->|Hin].
  - rewrite Hd. eauto.
  - destruct (day_of_week a); [|eauto].
    destruct (String.eqb _ ""); eapply IH; eauto.
Qed.

Lemma weekday_name_nonempty : forall d, weekday_name d <> "".
Proof.
  intros d. unfold weekday_name.
  pose proof (Z.mod_pos_bound (d + 6) 7 ltac:(lia)) as B.
  assert (Hn : (Z.to_nat ((d + 6) mod 7) < 7)%nat) by lia.
  destruct (Z.to_nat ((d + 6) mod 7)) as [|[|[|[|[|[|[|n]]]]]]]; simpl; try discriminate.
  lia.
Qed.

Lemma range_slots_within : forall env date dn dur r out s,
  range_slots env date dn dur r = Ret out -> In s out ->
  exists f t, r = (Some f, Some t) /\ slot_date s = date /\ slot_day s = dn /\
    f <= slot_from s /\ slot_from s + dur <= t /\ slot_to s = slot_from s + dur.
Proof.
  unfold range_slots; intros env date dn dur r out s H Hs.
  destruct r as [[f|] [t|]]; try (injection H as <-; contradiction).
  destruct (td_truthy (Some f) && td_truthy (Some t)); [|injection H as <-; contradiction].
  unfold parse_time in H.
  destruct ((0 <=? f) && (f <? day_seconds)) eqn:Hf; [|discriminate].
  destruct ((0 <=? t) && (t <? day_seconds)) eqn:Ht; [|discriminate].
  cbn [bind] in H. rewrite andb_true_iff, Z.leb_le, Z.ltb_lt in Hf, Ht.
  assert (Hlo : date * day_seconds <= date * day_seconds + f) by lia.
  assert (Hhi : date * day_seconds + t < date * day_seconds + day_seconds) by lia.
  destruct (BookAppointmentSweep.sweep_bounds _ _ _ _ _ _ _ _ H Hlo Hhi s Hs)
    as [Hd [Hn [H1 [H2 [H3 [H4 [H5 [H6 H7]]]]]]]].
  exists f, t. unfold slot_start in *. rewrite Hd in *.
  repeat split; auto; lia.
Qed.

Lemma range_slots_run : forall env date dn dur f t ys,
  range_slots env date dn dur (Some f, Some t) = Ret ys -> f <> 0 -> t <> 0 ->
  0 <= f < day_seconds /\ 0 <= t < day_seconds /\
  sweep (S (Z.to_nat (date * day_seconds + t - (date * day_seconds + f)))) env date dn dur
    (date * day_seconds + f) (date * day_seconds + t) = Ret ys.
Proof.
  intros env date dn dur f t ys H Hf0 Ht0. unfold range_slots in H.
  assert (E : td_truthy (Some f) && td_truthy (Some t) = true).
  { simpl. rewrite (proj2 (Z.eqb_neq f 0) Hf0), (proj2 (Z.eqb_neq t 0) Ht0). reflexivity. }
  rewrite E in H. unfold parse_time in H.
  destruct ((0 <=? f) && (f <? day_seconds)) eqn:Hf; [|discriminate].
  destruct ((0 <=? t) && (t <? day_seconds)) eqn:Ht; [|discriminate].
  cbn [bind] in H. rewrite andb_true_iff, Z.leb_le, Z.ltb_lt in Hf, Ht. auto.
Qed.

Lemma date_in_window : forall t days date,
  t <= date < t + days -> In date (map (fun i => t + Z.of_nat i) (seq 0 (Z.to_nat days))).
Proof.
  intros t days date H. apply in_map_iff. exists (Z.to_nat (date - t)). split; [lia|].
  apply in_seq. lia.
Qed.

Lemma date_of_window : forall t days date,
  In date (map (fun i => t + Z.of_nat i) (seq 0 (Z.to_nat days))) -> t <= date < t + days.
Proof.
  intros t days date H. apply in_map_iff in H as [i [<- Hi]]. apply in_seq in Hi. lia.
Qed.

(** A candidate of a configured range is offered when slot generation
    raises nothing: see [slots_complete] for the conditions. *)
Lemma candidate_returned : forall env out st rows row date f t k bs,
  BookAppointment.get_time_slots_body env = Ret out ->
  BookAppointment.settings_lookup env = Some st -> enable_scheduling st <> 0 ->
  0 <= appointment_duration st ->
  ab_slot_rows env = Some rows -> In row rows -> row_day row = Some (weekday_name date) ->
  row_from_time row = Some f -> row_to_time row = Some t -> f <> 0 -> t <> 0 ->
  today env <= date < today env + BookAppointment.or_default (advance_booking_days st) 7 ->
  f + Z.of_nat k * (BookAppointment.or_default (appointment_duration st) 60 * 60)
    + BookAppointment.or_default (appointment_duration st) 60 * 60 <= t ->
  now env - 5 * 60 <= date * day_seconds + f
    + Z.of_nat k * (BookAppointment.or_default (appointment_duration st) 60 * 60) ->
  bookings env = Some bs ->
  ~ taken bs date (f + Z.of_nat k * (BookAppointment.or_default (appointment_duration st) 60 * 60)) ->
  In (mkSlot date (weekday_name date)
        (f + Z.of_nat k * (BookAppointment.or_default (appointment_duration st) 60 * 60))
        (f + Z.of_nat k * (BookAppointment.or_default (appointment_duration st) 60 * 60)
           + BookAppointment.or_default (appointment_duration st) 60 * 60)) out.
Proof.
  intros env out st rows row date f t k bs H Hst Hen Hdur Hr Hrow Hday Hf Ht Hf0 Ht0 Hwin
    Hend Hnow Hb Hnt.
  set (D := BookAppointment.or_default (appointment_duration st) 60 * 60) in *.
  assert (HD : 0 < D).
  { subst D. unfold BookAppointment.or_default.
    destruct (Z.eqb_spec (appointment_duration st) 0); lia. }
  unfold BookAppointment.get_time_slots_body in H. rewrite Hst in H.
  rewrite (proj2 (Z.eqb_neq _ 0) Hen) in H. rewrite Hr in H.
  destruct (day_of_week row) as [raw|] eqn:Hraw; [|unfold row_day in Hday; rewrite Hraw in Hday; discriminate].
  assert (Hkey : normalize_day (py_strip raw) = weekday_name date).
  { unfold row_day in Hday. rewrite Hraw in Hday. injection Hday as E. exact E. }
  assert (Hne : py_strip raw <> "").
  { intros E. rewrite E in Hkey. apply (weekday_name_nonempty date). rewrite <- Hkey.
    reflexivity. }
  destruct rows as [|r0 rows']; [contradiction|].
  destruct (BookAppointment.group_rows (r0 :: rows') []) as [by_day| |] eqn:Hg; try discriminate.
  cbn [bind] in H.
  destruct (group_rows_complete _ _ _ _ _ Hg Hrow Hraw Hne) as [rs [Hl Hin]].
  rewrite Hkey, Hf, Ht in *.
  destruct by_day as [|b bs']; [discriminate|].
  fold D in H.
  destruct (concat_map_out_in _ _ _ date H (date_in_window _ _ _ Hwin))
    as [ys [Hd Hys]].
  unfold BookAppointment.day_slots in Hd. rewrite Hl in Hd.
  destruct (concat_map_out_in _ _ _ _ Hd Hin) as [ys2 [Hrs Hys2]].
  destruct (range_slots_run _ _ _ _ _ _ _ Hrs Hf0 Ht0) as [Bf [Bt Hsw]].
  apply Hys, Hys2.
  assert (Hk0 : 0 <= Z.of_nat k * D) by nia.
  assert (M1 : (date * day_seconds + f + Z.of_nat k * D) mod day_seconds = f + Z.of_nat k * D).
  { rewrite (mod_in_day date); unfold day_seconds in *; lia. }
  assert (M2 : (date * day_seconds + f + Z.of_nat k * D + D) mod day_seconds
               = f + Z.of_nat k * D + D).
  { rewrite (mod_in_day date); unfold day_seconds in *; lia. }
  assert (HH := sweep_complete k _ env date _ D _ _ _ bs Hsw).
  rewrite M1, M2 in HH. apply HH; auto; lia.
Qed.

End SlotCoverage.

(** ** The claims *)

Module Claims.
Import Examples.

(** C1: the slot sweep of [book_appointment.py] never starts for a working
    range beginning at 00:00: [if not from_time_val] treats the zero
    [timedelta] of midnight as a missing value, so a Monday range
    00:00-01:00 with 30-minute slots yields no slot, where the same range an
    hour later yields two and [book-appointment.py] sweeps a working day
    starting at 00:00.  The examples of the specification, 09:00-10:00 with
    30 and 40 minutes, do hold. *)
Theorem C1_midnight_range_skipped :
  BookAppointment.get_time_slots
    (ab_env 30 [monday_row 0 (hm 1 0)] [] sunday_late) = Some [] /\
  BookAppointment.get_time_slots
    (ab_env 30 [monday_row (hm 1 0) (hm 2 0)] [] sunday_late) =
    Some [mon_slot (hm 1 0) (hm 1 30); mon_slot (hm 1 30) (hm 2 0)] /\
  option_map (firstn 2) (BookAppointmentPage.get_time_slots
    (page_env (Some (0, 0)) (Some (1, 0)) [30] [] sunday_late)) =
    Some [mon_slot 0 (hm 0 30); mon_slot (hm 0 30) (hm 1 0)] /\
  BookAppointment.get_time_slots
    (ab_env 30 [monday_row (hm 9 0) (hm 10 0)] [] sunday_late) =
    Some [mon_slot (hm 9 0) (hm 9 30); mon_slot (hm 9 30) (hm 10 0)] /\
  BookAppointment.get_time_slots
    (ab_env 40 [monday_row (hm 9 0) (hm 10 0)] [] sunday_late) =
    Some [mon_slot (hm 9 0) (hm 9 40)].
Proof. vm_compute. repeat split. Qed.

(** C2: [book-appointment.py]'s [get_time_slots] consults only
    [Appointment Booking]: with a Pending [Video Production Appointment] on
    Monday 09:00 it still offers the Monday 09:00 slot, which
    [book_appointment.py] discards for the same booking. *)
Theorem C2_video_booking_ignored_by_page :
  BookAppointment.get_time_slots
    (ab_env 60 [monday_row (hm 9 0) (hm 10 0)] [video_booking_9am] sunday_late) = Some [] /\
  option_map (firstn 1) (BookAppointmentPage.get_time_slots
    (page_env (Some (9, 0)) (Some (10, 0)) [60] [video_booking_9am] sunday_late)) =
    Some [mon_slot (hm 9 0) (hm 10 0)].
Proof. vm_compute. split; reflexivity. Qed.

(** C3 (counterexample): at 09:01, [book_appointment.py] still returns the
    slot that started at 09:00. *)
Lemma C3_started_slot_returned :
  BookAppointment.get_time_slots
    (ab_env 30 [monday_row (hm 9 0) (hm 10 0)] [] (monday_midnight + hm 9 1)) =
    Some [mon_slot (hm 9 0) (hm 9 30); mon_slot (hm 9 30) (hm 10 0)] /\
  slot_start (mon_slot (hm 9 0) (hm 9 30)) < monday_midnight + hm 9 1.
Proof. vm_compute. split; reflexivity. Qed.

(** C3: every slot [book_appointment.py] returns starts no earlier than five
    minutes before now; conversely, when slot generation raises nothing,
    every free candidate of a configured range that starts no earlier than
    five minutes before now is returned, so the buffer widens the window:
    a slot begun up to five minutes ago is offered, and so is any later
    one, a slot one minute ahead included (the other conditions on the
    candidate are those of [SlotCoverage.candidate_returned]).  Every slot
    [book-appointment.py] returns starts strictly after now. *)
Theorem C3_returned_slots_start_time :
  (forall env out, BookAppointment.get_time_slots env = Some out ->
     forall s, In s out -> now env - 5 * 60 <= slot_start s) /\
  (forall env out st rows row date f t k bs,
     BookAppointment.get_time_slots_body env = Ret out ->
     BookAppointment.settings_lookup env = Some st -> enable_scheduling st <> 0 ->
     0 <= appointment_duration st ->
     ab_slot_rows env = Some rows -> In row rows -> row_day row = Some (weekday_name date) ->
     row_from_time row = Some f -> row_to_time row = Some t -> f <> 0 -> t <> 0 ->
     today env <= date < today env + BookAppointment.or_default (advance_booking_days st) 7 ->
     f + Z.of_nat k * (BookAppointment.or_default (appointment_duration st) 60 * 60)
       + BookAppointment.or_default (appointment_duration st) 60 * 60 <= t ->
     now env - 5 * 60 <= date * day_seconds + f
       + Z.of_nat k * (BookAppointment.or_default (appointment_duration st) 60 * 60) ->
     bookings env = Some bs ->
     ~ taken bs date (f + Z.of_nat k * (BookAppointment.or_default (appointment_duration st) 60 * 60)) ->
     In (mkSlot date (weekday_name date)
           (f + Z.of_nat k * (BookAppointment.or_default (appointment_duration st) 60 * 60))
           (f + Z.of_nat k * (BookAppointment.or_default (appointment_duration st) 60 * 60)
              + BookAppointment.or_default (appointment_duration st) 60 * 60)) out) /\
  (forall env out, BookAppointmentPage.get_time_slots env = Some out ->
     forall s, In s out -> now env < slot_start s).
Proof.
  split; [|split].
  - intros env out H s Hin.
    destruct (Lifting.ab_slots_some env out H) as [Hb| ->]; [|contradiction].
    apply (BookAppointmentSweep.body_in env out Hb s Hin).
  - exact SlotCoverage.candidate_returned.
  - intros env out H s Hin.
    destruct (Lifting.page_slots_some env out H) as [Hb| ->]; [|contradiction].
    apply (proj2 (BookAppointmentPageSweep.body_facts env out Hb) s Hin).
Qed.

(** At 09:04 the 09:00 slot, begun four minutes ago, is offered; at 08:59
    the 09:00 slot, one minute ahead, is offered. *)
Lemma C3_returned_slots_start_time_witness :
  (monday_midnight + hm 9 1) - 5 * 60 <= slot_start (mon_slot (hm 9 0) (hm 9 30)) /\
  In (mkSlot monday_2025_01_06 "Monday" (hm 9 0 + Z.of_nat 0 * (30 * 60))
        (hm 9 0 + Z.of_nat 0 * (30 * 60) + 30 * 60))
     [mon_slot (hm 9 0) (hm 9 30); mon_slot (hm 9 30) (hm 10 0)] /\
  In (mkSlot monday_2025_01_06 "Monday" (hm 9 0 + Z.of_nat 0 * (30 * 60))
        (hm 9 0 + Z.of_nat 0 * (30 * 60) + 30 * 60))
     [mon_slot (hm 9 0) (hm 9 30); mon_slot (hm 9 30) (hm 10 0)].
Proof.
  split; [|split].
  - apply (proj1 C3_returned_slots_start_time
             (ab_env 30 [monday_row (hm 9 0) (hm 10 0)] [] (monday_midnight + hm 9 1))
             [mon_slot (hm 9 0) (hm 9 30); mon_slot (hm 9 30) (hm 10 0)]).
    + vm_compute. reflexivity.
    + simpl. left. reflexivity.
  - apply (proj1 (proj2 C3_returned_slots_start_time)
             (ab_env 30 [monday_row (hm 9 0) (hm 10 0)] [] (monday_midnight + hm 9 4))
             [mon_slot (hm 9 0) (hm 9 30); mon_slot (hm 9 30) (hm 10 0)] (mkABSettings 1 30 1)
             [monday_row (hm 9 0) (hm 10 0)] (monday_row (hm 9 0) (hm 10 0))
             monday_2025_01_06 (hm 9 0) (hm 10 0) 0%nat []);
      try (vm_compute; reflexivity); try (vm_compute; congruence).
    + left. reflexivity.
    + vm_compute. split; congruence.
    + intros [b [[] _]].
  - apply (proj1 (proj2 C3_returned_slots_start_time)
             (ab_env 30 [monday_row (hm 9 0) (hm 10 0)] [] (monday_midnight + hm 8 59))
             [mon_slot (hm 9 0) (hm 9 30); mon_slot (hm 9 30) (hm 10 0)] (mkABSettings 1 30 1)
             [monday_row (hm 9 0) (hm 10 0)] (monday_row (hm 9 0) (hm 10 0))
             monday_2025_01_06 (hm 9 0) (hm 10 0) 0%nat []);
      try (vm_compute; reflexivity); try (vm_compute; congruence).
    + left. reflexivity.
    + vm_compute. split; congruence.
    + intros [b [[] _]].
Defined.

(** C4 (counterexample): the exception text reaches the guest.  A database
    error while inserting the booking becomes the response's message, and
    [debug_appointment_settings] returns the traceback. *)
Lemma C4_exception_text_returned :
  fst (Intake.create_appointment accept_email loads_empty no_company_location insert_fails
         apt_name full_payload []) =
    mkResponse false "(2013, 'Lost connection to MySQL server during query')" None /\
  Intake.debug_appointment_settings (Err db_error) =
    JObj [("error", JStr "(2013, 'Lost connection to MySQL server during query')");
          ("traceback", JStr "Traceback (most recent call last): pymysql.err.OperationalError")].
Proof. vm_compute. split; reflexivity. Qed.

(** C4: an exception inside [create_appointment] (either variant) gives
    [success = false] with [str(e)] as the message and no record;
    [debug_appointment_settings] returns [str(e)] and the formatted
    traceback; [get_time_slots] returns an empty list. *)
Theorem C4_exception_responses :
  (forall vea jl scl ic an data db e,
     Intake.create_appointment_body vea jl scl ic an data db = Err e ->
     Intake.create_appointment vea jl scl ic an data db = (mkResponse false (exc_msg e) None, db)) /\
  (forall vea ic an data db e,
     VideoProduction.create_appointment_body vea ic an data db = Err e ->
     VideoProduction.create_appointment vea ic an data db = (mkResponse false (exc_msg e) None, db)) /\
  (forall e, Intake.debug_appointment_settings (Err e) =
     JObj [("error", JStr (exc_msg e)); ("traceback", JStr (exc_tb e))]) /\
  (forall env e, BookAppointment.get_time_slots_body env = Raise e ->
     BookAppointment.get_time_slots env = Some []).
Proof.
  repeat split.
  - intros vea jl scl ic an data db e H. unfold Intake.create_appointment. rewrite H. reflexivity.
  - intros vea ic an data db e H. unfold VideoProduction.create_appointment. rewrite H. reflexivity.
  - intros env e H. unfold BookAppointment.get_time_slots. rewrite H. reflexivity.
Qed.

Lemma C4_exception_responses_witness :
  Intake.create_appointment_body accept_email loads_empty no_company_location insert_fails
    apt_name full_payload [] = Err db_error /\
  Intake.create_appointment accept_email loads_empty no_company_location insert_fails
    apt_name full_payload [] = (mkResponse false (exc_msg db_error) None, []).
Proof.
  split; [vm_compute; reflexivity|].
  apply (proj1 C4_exception_responses). vm_compute. reflexivity.
Defined.

(** C5 (counterexample): an empty payload lacks the email, but the
    response names the customer name, the first field checked. *)
Lemma C5_empty_payload_names_customer :
  Intake.create_appointment accept_email loads_empty no_company_location insert_ok apt_name
    (JObj []) [] = (mkResponse false "Customer Name is required" None, []).
Proof. vm_compute. reflexivity. Qed.

(** C5: the presence checks run in the order name, phone, email,
    service(s), location, date, time, with the email's form checked right
    after its presence; the first failing check gives [success = false]
    with its message and no record.  In particular a payload with a name
    and a phone but no email gets ["Email is required"], and a payload
    missing the email and an earlier field gets the earlier field's
    message. *)
Theorem C5_first_missing_field :
  forall vea jl scl ic an kvs db,
  (forall e, first_failing vea kvs required_fields = Some e ->
     Intake.create_appointment vea jl scl ic an (JObj kvs) db =
       (mkResponse false (exc_msg e) None, db)) /\
  (truthy (payload_get kvs "customer_name") = true ->
   truthy (payload_get kvs "phone_number") = true ->
   truthy (payload_get kvs "email") = false ->
   Intake.create_appointment vea jl scl ic an (JObj kvs) db =
     (mkResponse false "Email is required" None, db)) /\
  (truthy (payload_get kvs "email") = false ->
   forall msg, first_missing kvs required_fields = Some msg ->
   Intake.create_appointment vea jl scl ic an (JObj kvs) db = (mkResponse false msg None, db)).
Proof.
  intros vea jl scl ic an kvs db.
  assert (Hfirst : forall e, first_failing vea kvs required_fields = Some e ->
     Intake.create_appointment vea jl scl ic an (JObj kvs) db =
       (mkResponse false (exc_msg e) None, db)).
  { intros e Hff. simpl in Hff.
    unfold Intake.create_appointment, Intake.create_appointment_body, Intake.require.
    rewrite !IntakeFacts.py_get_obj. cbn [rbind].
    destruct (truthy (payload_get kvs "customer_name")); [|injection Hff as <-; reflexivity].
    cbn [rbind].
    destruct (truthy (payload_get kvs "phone_number")); [|injection Hff as <-; reflexivity].
    cbn [rbind].
    destruct (truthy (payload_get kvs "email")); [|injection Hff as <-; reflexivity].
    cbn [rbind].
    destruct (vea (payload_get kvs "email")); [injection Hff as <-; reflexivity|].
    cbn [rbind].
    destruct (truthy (payload_get kvs "selected_services")); [|injection Hff as <-; reflexivity].
    cbn [rbind].
    destruct (truthy (payload_get kvs "meeting_location")); [|injection Hff as <-; reflexivity].
    cbn [rbind].
    destruct (truthy (payload_get kvs "booking_date")); [|injection Hff as <-; reflexivity].
    cbn [rbind].
    destruct (truthy (payload_get kvs "booking_time")); [|injection Hff as <-; reflexivity].
    discriminate. }
  assert (Hmiss : truthy (payload_get kvs "email") = false ->
     forall msg, first_missing kvs required_fields = Some msg ->
     Intake.create_appointment vea jl scl ic an (JObj kvs) db = (mkResponse false msg None, db)).
  { intros E3 msg Hfm. apply (Hfirst (validation_error msg)).
    simpl in Hfm |- *. rewrite E3 in *.
    destruct (truthy (payload_get kvs "customer_name")); [|injection Hfm as <-; reflexivity].
    destruct (truthy (payload_get kvs "phone_number")); injection Hfm as <-; reflexivity. }
  split; [exact Hfirst|split; [|exact Hmiss]].
  intros E1 E2 E3. apply (Hmiss E3). simpl. rewrite E1, E2, E3. reflexivity.
Qed.

(** A name, a phone and a malformed email without services: the email's
    error, not the services message; a name and a phone without email:
    ["Email is required"]; nothing at all: the name's message. *)
Lemma C5_first_missing_field_witness :
  Intake.create_appointment reject_email loads_empty no_company_location insert_ok apt_name
    (JObj [("customer_name", JStr "Mariam"); ("phone_number", JStr "+97455501234");
           ("email", JStr "mariam@")]) [] =
    (mkResponse false "mariam@ is not a valid Email Address" None, []) /\
  Intake.create_appointment accept_email loads_empty no_company_location insert_ok apt_name
    (JObj [("customer_name", JStr "Mariam"); ("phone_number", JStr "+97455501234")]) [] =
    (mkResponse false "Email is required" None, []) /\
  Intake.create_appointment accept_email loads_empty no_company_location insert_ok apt_name
    (JObj []) [] = (mkResponse false "Customer Name is required" None, []).
Proof.
  split; [|split].
  - apply (proj1 (C5_first_missing_field reject_email loads_empty no_company_location insert_ok
           apt_name [("customer_name", JStr "Mariam"); ("phone_number", JStr "+97455501234");
                     ("email", JStr "mariam@")] [])
           (validation_error "mariam@ is not a valid Email Address")).
    vm_compute. reflexivity.
  - apply (proj1 (proj2 (C5_first_missing_field accept_email loads_empty no_company_location
           insert_ok apt_name [("customer_name", JStr "Mariam"); ("phone_number", JStr "+97455501234")]
           []))); vm_compute; reflexivity.
  - apply (proj2 (proj2 (C5_first_missing_field accept_email loads_empty no_company_location
           insert_ok apt_name [] []))); vm_compute; reflexivity.
Defined.

(** C6 (counterexample): a Current Active Client appointment dated
    2020-01-01, a past date, passes [validate]; [validate] does not read the
    clock, so this holds whatever the request time. *)
Lemma C6_past_date_accepted :
  VideoProduction.validate (client_doc (JStr "2020-01-01")) = Ok tt.
Proof. reflexivity. Qed.

(** C6: [validate] accepts a New Customer appointment exactly when industry,
    requirements and budget are set, and a Current Active Client
    appointment exactly when the brand name, a booking date (any date) and
    the acknowledgment flag are set; otherwise it raises. *)
Theorem C6_validate_required_fields : forall doc : VideoProduction.VDoc,
  (is_str (VideoProduction.vd_appointment_type doc) "New Customer" = true ->
   (VideoProduction.validate doc = Ok tt <->
    truthy (VideoProduction.vd_industry doc) = true /\
    truthy (VideoProduction.vd_requirements doc) = true /\
    truthy (VideoProduction.vd_budget doc) = true)) /\
  (is_str (VideoProduction.vd_appointment_type doc) "Current Active Client" = true ->
   (VideoProduction.validate doc = Ok tt <->
    truthy (VideoProduction.vd_brand_name doc) = true /\
    truthy (VideoProduction.vd_booking_date doc) = true /\
    truthy (VideoProduction.vd_acknowledgment_checkbox doc) = true)).
Proof.
  intros doc. unfold VideoProduction.validate. split; intros Ht.
  - rewrite Ht.
    destruct (truthy (VideoProduction.vd_industry doc));
    destruct (truthy (VideoProduction.vd_requirements doc));
    destruct (truthy (VideoProduction.vd_budget doc)); simpl;
    split; intros H; try discriminate; try (decompose [and] H; discriminate); auto.
  - assert (Hn : is_str (VideoProduction.vd_appointment_type doc) "New Customer" = false).
    { destruct (VideoProduction.vd_appointment_type doc); try reflexivity. simpl in *.
      apply String.eqb_eq in Ht. subst. reflexivity. }
    rewrite Hn, Ht.
    destruct (truthy (VideoProduction.vd_brand_name doc));
    destruct (truthy (VideoProduction.vd_booking_date doc));
    destruct (truthy (VideoProduction.vd_acknowledgment_checkbox doc)); simpl;
    split; intros H; try discriminate; try (decompose [and] H; discriminate); auto.
Qed.

Lemma C6_validate_required_fields_witness :
  VideoProduction.validate (client_doc (JStr "2020-01-01")) = Ok tt.
Proof.
  apply (proj2 (proj2 (C6_validate_required_fields (client_doc (JStr "2020-01-01"))) eq_refl)).
  repeat split.
Defined.




(** C8: [book_appointment.py]'s [get_time_slots] returns the empty list
    when both settings lookups fail, when the slot rows cannot be read, when
    no slot row is configured, and whenever slot generation raises; it
    always returns a list. *)
Theorem C8_failures_give_empty_list : forall env,
  (BookAppointment.settings_lookup env = None -> BookAppointment.get_time_slots env = Some []) /\
  (ab_slot_rows env = None -> BookAppointment.get_time_slots env = Some []) /\
  (ab_slot_rows env = Some [] -> BookAppointment.get_time_slots env = Some []) /\
  (forall e, BookAppointment.get_time_slots_body env = Raise e ->
     BookAppointment.get_time_slots env = Some []) /\
  BookAppointment.get_time_slots env <> None.
Proof.
  intros env. unfold BookAppointment.get_time_slots.
  pose proof (BookAppointmentTotal.body_not_hang env) as Hnh.
  repeat split.
  - intros H. unfold BookAppointment.get_time_slots_body. rewrite H. reflexivity.
  - intros H. unfold BookAppointment.get_time_slots_body.
    destruct (BookAppointment.settings_lookup env) as [s|]; [|reflexivity].
    destruct (enable_scheduling s =? 0); [reflexivity|]. rewrite H. reflexivity.
  - intros H. unfold BookAppointment.get_time_slots_body.
    destruct (BookAppointment.settings_lookup env) as [s|]; [|reflexivity].
    destruct (enable_scheduling s =? 0); [reflexivity|]. rewrite H. reflexivity.
  - intros e H. rewrite H. reflexivity.
  - destruct (BookAppointment.get_time_slots_body env); [discriminate|discriminate|contradiction].
Qed.

Lemma C8_failures_give_empty_list_witness :
  BookAppointment.get_time_slots
    (mkEnv None None (Some [monday_row (hm 9 0) (hm 10 0)]) None None (Some [])
       monday_2025_01_06 sunday_late) = Some [].
Proof.
  apply (proj1 (C8_failures_give_empty_list
    (mkEnv None None (Some [monday_row (hm 9 0) (hm 10 0)]) None None (Some [])
       monday_2025_01_06 sunday_late))).
  reflexivity.
Defined.

(** C9 (counterexample): a payload naming Monday twice, first off and then
    on from 09:00 to 12:00, is saved successfully and leaves Monday on with
    that slot, although one of its Monday entries has a falsy
    [is_available]. *)
Lemma C9_later_entry_wins :
  Availability.save_availability day_key cint_zero insert_ok ua_name_of
    (JList [monday_off; monday_on]) "mariam@example.com" [] =
  (mkResponse true "Availability settings saved successfully!" None,
   [Availability.mkUA "UA" "mariam@example.com" (JStr "Monday") 1
      [(JStr "09:00:00", JStr "12:00:00")]]).
Proof. vm_compute. reflexivity. Qed.

(** C9: after a successful [save_availability], for the last payload entry
    naming a day, the record [frappe.db.exists] finds for (user, day) has
    [is_available] = [1 if cint(is_available) else 0] and exactly that
    entry's time slots, replacing the stored ones; for a falsy
    [is_available] this is 0 and no slot. *)
Theorem C9_last_entry_persisted :
  forall db_key cint_str save_check autoname data user db resp db' pre e post d v ts,
  (forall l, ~ In (autoname l) (map Availability.ua_name l)) ->
  NoDup (map Availability.ua_name db) ->
  Availability.save_availability db_key cint_str save_check autoname data user db = (resp, db') ->
  success resp = true ->
  py_iter data = Ok (pre ++ e :: post)%list ->
  py_get e "day" JNull = Ok d ->
  py_get e "is_available" (JInt 0) = Ok v ->
  py_get e "time_slots" (JList []) = Ok ts ->
  (forall e' d', In e' post -> py_get e' "day" JNull = Ok d' -> db_key d' <> db_key d) ->
  exists r, Availability.db_exists db_key user d db' = Some r /\
    Availability.ua_is_available r = Availability.check_value cint_str v /\
    Availability.new_slots v ts = Ok (Availability.ua_time_slots r) /\
    (truthy v = false -> cint_str "" = 0 ->
       Availability.ua_is_available r = 0 /\ Availability.ua_time_slots r = []).
Proof.
  intros db_key cint_str save_check autoname data user db resp db' pre e post d v ts
    Hfresh Hnd H Hs Hit Hd Hv Hts Hpost.
  destruct (AvailabilityFacts.save_availability_last_entry db_key cint_str save_check autoname
              Hfresh data user db resp db' pre e post d v ts Hnd H Hs Hit Hd Hv Hts Hpost)
    as [r [Hr [Ha Hsl]]].
  exists r. split; [exact Hr|]. split; [exact Ha|]. split; [exact Hsl|].
  intros Hf Hc. split.
  - rewrite Ha. unfold Availability.check_value.
    rewrite (AvailabilityFacts.falsy_cint cint_str v Hf Hc). reflexivity.
  - unfold Availability.new_slots in Hsl. rewrite Hf in Hsl.
    injection Hsl as Hsl. symmetry. exact Hsl.
Qed.

Lemma C9_last_entry_persisted_witness :
  Availability.db_exists day_key "mariam@example.com" (JStr "Monday")
    [Availability.mkUA "UA" "mariam@example.com" (JStr "Monday") 1
       [(JStr "09:00:00", JStr "12:00:00")]] <> None.
Proof.
  destruct (C9_last_entry_persisted day_key cint_zero insert_ok ua_name_of
              (JList [monday_off; monday_on]) "mariam@example.com" []
              (mkResponse true "Availability settings saved successfully!" None)
              [Availability.mkUA "UA" "mariam@example.com" (JStr "Monday") 1
                 [(JStr "09:00:00", JStr "12:00:00")]]
              [monday_off] monday_on [] (JStr "Monday") (JInt 1)
              (JList [JObj [("from_time", JStr "09:00:00"); ("to_time", JStr "12:00:00")]])
              ExampleFacts.ua_name_of_fresh (NoDup_nil _))
    as [r [Hr _]].
  - vm_compute. reflexivity.
  - reflexivity.
  - reflexivity.
  - reflexivity.
  - reflexivity.
  - reflexivity.
  - intros e' d' [].
  - rewrite Hr. discriminate.
Defined.

(** C10: a successful video-production request stores the company
    ["Directlines"] when the payload has no company or has ["Direct Line"]
    or ["Directlines"], and ["Easy AI"] when it has ["Easy AI"]; a company
    value other than these three gives [success = false] and stores
    nothing. *)
Theorem C10_company_normalised : forall vea ic an kvs db resp db',
  VideoProduction.create_appointment vea ic an (JObj kvs) db = (resp, db') ->
  (success resp = true ->
   exists doc, db' = (db ++ [doc])%list /\
     ((assoc "company" kvs = None \/ assoc "company" kvs = Some (JStr "Direct Line") \/
       assoc "company" kvs = Some (JStr "Directlines")) ->
      VideoProduction.vd_company doc = JStr "Directlines") /\
     (assoc "company" kvs = Some (JStr "Easy AI") -> VideoProduction.vd_company doc = JStr "Easy AI")) /\
  (forall v, assoc "company" kvs = Some v ->
   is_str v "Easy AI" = false -> is_str v "Directlines" = false -> is_str v "Direct Line" = false ->
   success resp = false /\ db' = db).
Proof.
  intros vea ic an kvs db resp db' H. unfold VideoProduction.create_appointment in H.
  destruct (VideoProduction.create_appointment_body vea ic an (JObj kvs) db)
    as [[dbn name]|e] eqn:Hb.
  - injection H as <- <-.
    destruct (VideoFacts.body_ok _ _ _ _ _ _ _ Hb) as [doc [-> Hc]].
    split.
    + intros _. exists doc. split; [reflexivity|].
      exact (VideoFacts.check_company_ok kvs _ Hc).
    + intros v E H1 H2 H3.
      rewrite (VideoFacts.check_company_invalid kvs v E H1 H2 H3) in Hc. discriminate.
  - injection H as <- <-. split; [discriminate|]. auto.
Qed.

Lemma C10_company_normalised_witness :
  exists doc, VideoProduction.vd_company doc = JStr "Directlines".
Proof.
  destruct (proj1 (C10_company_normalised accept_email insert_ok apt_name
              (client_payload [("company", JStr "Direct Line")]) []
              (mkResponse true
                 "Your appointment request has been submitted successfully! We will contact you soon."
                 (Some "APT-2025-0"))
              [client_doc (JStr "2025-01-06")]
              ltac:(vm_compute; reflexivity)) eq_refl) as [doc [_ [Hdl _]]].
  exists doc. apply Hdl. right. left. reflexivity.
Defined.

End Claims.


(** ** Further properties of the code *)


Module PageCoverage.
Import BookAppointmentPage.

Lemma page_sweep_free : forall fuel env date dn dur cur end_dt out,
  sweep fuel env date dn dur cur end_dt = Ret out ->
  forall s, In s out -> has_booking env date (slot_from s) = Ret false.
Proof.
  induction fuel as [|fuel IH]; simpl; intros env date dn dur cur end_dt out H s Hs.
  - injection H as <-. contradiction.
  - destruct (cur + dur <=? end_dt); [|injection H as <-; contradiction].
    destruct (dur =? 0); [discriminate|].
    destruct (dur <? 0); [discriminate|].
    destruct (cur <=? now env); [eapply IH; eauto|].
    destruct (has_booking env date (cur mod day_seconds)) as [b| |] eqn:B; try discriminate.
    cbn [bind] in H.
    destruct (sweep fuel env date dn dur (cur + dur) end_dt) as [rest| |] eqn:R;
      try discriminate.
    cbn [bind] in H.
    destruct b; injection H as <-; [eapply IH; eauto|].
    destruct Hs as [<-|Hs]; [exact B|eapply IH; eauto].
Qed.

Lemma has_booking_false : forall env date tod,
  has_booking env date tod = Ret false ->
  exists bs, bookings env = Some bs /\
    forall b, In b bs -> bk_doctype b = "Appointment Booking" -> bk_date b = date ->
      bk_time b = tod -> bk_status b <> "Pending" /\ bk_status b <> "Confirmed".
Proof.
  unfold has_booking, db_count; intros env date tod H.
  destruct (bookings env) as [bs|]; [|discriminate].
  cbn [bind] in H. injection H as H. exists bs. split; [reflexivity|].
  intros b Hb Hd Hdate Ht.
  destruct (booking_matches "Appointment Booking" date tod b) eqn:M.
  - assert (Hin : In b (filter (booking_matches "Appointment Booking" date tod) bs))
      by (apply filter_In; auto).
    destruct (filter (booking_matches "Appointment Booking" date tod) bs) as [|x l];
      [contradiction|apply Z.ltb_ge in H; simpl in H; lia].
  - unfold booking_matches, active_status in M.
    rewrite Hd, Hdate, Ht, String.eqb_refl, !Z.eqb_refl in M. simpl in M.
    apply orb_false_iff in M as [M1 M2].
    split; intros E; rewrite E in *; discriminate.
Qed.

(** A Python loop over [l] whose body gives nothing or stops in the same
    way [o] stops, at least once, stops in that way. *)
Lemma concat_map_out_stuck : forall {A B} (f : A -> outcome (list B)) o l,
  (forall a, o <> Ret a) ->
  (forall x, In x l -> f x = Ret [] \/ f x = o) ->
  (exists x, In x l /\ f x = o) ->
  concat_map_out f l = o.
Proof.
  intros A B f o l Hno. induction l as [|x l IH]; simpl; intros Hall [y [Hy Hfy]];
    [contradiction|].
  destruct (Hall x (or_introl eq_refl)) as [E|E]; rewrite E; cbn [bind].
  - destruct Hy as [<-|Hy]; [rewrite E in Hfy; destruct (Hno [] (eq_sym Hfy))|].
    rewrite IH; [| intros z Hz; apply Hall; auto | exists y; auto].
    destruct o as [a| |]; [destruct (Hno a eq_refl)|reflexivity|reflexivity].
  - destruct o as [a| |]; [destruct (Hno a eq_refl)|reflexivity|reflexivity].
Qed.

Lemma weekday_cover : forall t j, (j < 7)%nat ->
  exists i, 0 <= i < 7 /\ weekday_name (t + i) = nth j weekday_names "".
Proof.
  intros t j Hj. exists ((Z.of_nat j - (t + 6) mod 7) mod 7). split; [apply Z.mod_pos_bound; lia|].
  unfold weekday_name.
  assert (E : (t + (Z.of_nat j - (t + 6) mod 7) mod 7 + 6) mod 7 = Z.of_nat j).
  { pose proof (Z.div_mod (t + 6) 7 ltac:(lia)) as E1.
    pose proof (Z.mod_pos_bound (t + 6) 7 ltac:(lia)) as B1.
    pose proof (Z.div_mod (Z.of_nat j - (t + 6) mod 7) 7 ltac:(lia)) as E2.
    pose proof (Z.mod_pos_bound (Z.of_nat j - (t + 6) mod 7) 7 ltac:(lia)) as B2.
    symmetry.
    apply Z.mod_unique with ((t + 6) / 7 - (Z.of_nat j - (t + 6) mod 7) / 7); [left; lia|].
    revert E1 B1 E2 B2.
    generalize ((t + 6) / 7) ((t + 6) mod 7) ((Z.of_nat j - (t + 6) mod 7) / 7)
      ((Z.of_nat j - (t + 6) mod 7) mod 7).
    intros; lia. }
  rewrite E, Nat2Z.id. reflexivity.
Qed.

Lemma working_days_weekdays : forall st,
  working_days st <> [] /\ incl (working_days st) weekday_names.
Proof.
  intros [? ? ? [] [] [] [] [] [] []];
    (split; [discriminate|intros x Hx; cbn in Hx |- *; intuition]).
Qed.

Lemma working_day_in_week : forall st t,
  exists i, 0 <= i < 7 /\ In (weekday_name (t + i)) (working_days st).
Proof.
  intros st t. destruct (working_days_weekdays st) as [Hne Hinc].
  destruct (working_days st) as [|n ns] eqn:W; [contradiction|].
  destruct (In_nth weekday_names n "" (Hinc n (or_introl eq_refl))) as [j [Hj Hn]].
  destruct (weekday_cover t j Hj) as [i [Hi Hw]]. exists i. split; [exact Hi|].
  rewrite Hw, Hn. left. reflexivity.
Qed.

(** One day of the page with a non-positive duration that fits between
    the working hours: nothing on a day off, otherwise the loop stops. *)
Lemma day_slots_nonpositive : forall env days a b d date,
  d <= 0 -> a + d * 60 <= b ->
  day_slots env days a b d date
  = if existsb (String.eqb (weekday_name date)) days
    then (if d =? 0 then Hang else Raise overflow_error) else Ret [].
Proof.
  intros env days a b d date Hd Hab. unfold day_slots.
  destruct (existsb (String.eqb (weekday_name date)) days); [|reflexivity].
  simpl. destruct (Z.leb_spec (date * day_seconds + a + d * 60) (date * day_seconds + b));
    [|lia].
  destruct (Z.eqb_spec d 0) as [->|Hd0]; [reflexivity|].
  destruct (Z.eqb_spec (d * 60) 0); [lia|].
  destruct (Z.ltb_spec (d * 60) 0); [reflexivity|lia].
Qed.

Lemma has_booking_free : forall env date tod bs,
  bookings env = Some bs ->
  (forall b, In b bs -> bk_doctype b = "Appointment Booking" -> bk_date b = date ->
     bk_time b = tod -> bk_status b <> "Pending" /\ bk_status b <> "Confirmed") ->
  has_booking env date tod = Ret false.
Proof.
  intros env date tod bs Hb Hfree. unfold has_booking, db_count. rewrite Hb. cbn [bind].
  destruct (filter (booking_matches "Appointment Booking" date tod) bs) as [|b l] eqn:Ef;
    [reflexivity|].
  assert (Hin : In b (filter (booking_matches "Appointment Booking" date tod) bs))
    by (rewrite Ef; left; reflexivity).
  apply filter_In in Hin as [Hin Hm].
  apply BookAppointmentFacts.booking_matches_true in Hm as [H1 [H2 [H3 H4]]].
  destruct (Hfree b Hin H1 H2 H3) as [N1 N2]. destruct H4; contradiction.
Qed.

Lemma page_sweep_complete : forall k fuel env date dn dur cur end_dt out,
  sweep fuel env date dn dur cur end_dt = Ret out ->
  0 < dur -> end_dt - cur < Z.of_nat fuel ->
  cur + Z.of_nat k * dur + dur <= end_dt ->
  now env < cur + Z.of_nat k * dur ->
  has_booking env date ((cur + Z.of_nat k * dur) mod day_seconds) = Ret false ->
  In (mkSlot date dn ((cur + Z.of_nat k * dur) mod day_seconds)
        ((cur + Z.of_nat k * dur + dur) mod day_seconds)) out.
Proof.
  induction k as [|k IH]; intros fuel env date dn dur cur end_dt out H Hd Hf Hend Hnow Hfree.
  - destruct fuel as [|fuel]; [simpl in Hf; lia|].
    simpl in H. simpl Z.of_nat in *. rewrite Z.mul_0_l, Z.add_0_r in *.
    destruct (Z.leb_spec (cur + dur) end_dt); [|lia].
    destruct (Z.eqb_spec dur 0); [lia|].
    destruct (Z.ltb_spec dur 0); [lia|].
    destruct (Z.leb_spec cur (now env)); [lia|].
    rewrite Hfree in H. cbn [bind] in H.
    destruct (sweep fuel env date dn dur (cur + dur) end_dt); try discriminate.
    injection H as <-. left. reflexivity.
  - destruct fuel as [|fuel]; [simpl in Hf; lia|].
    assert (E : cur + Z.of_nat (S k) * dur = cur + dur + Z.of_nat k * dur) by lia.
    rewrite E in Hend, Hnow, Hfree |- *.
    assert (Hrec : forall rest, sweep fuel env date dn dur (cur + dur) end_dt = Ret rest ->
      In (mkSlot date dn ((cur + dur + Z.of_nat k * dur) mod day_seconds)
            ((cur + dur + Z.of_nat k * dur + dur) mod day_seconds)) rest).
    { intros rest Hr. apply (IH fuel env date dn dur (cur + dur) end_dt rest Hr Hd);
        auto; lia. }
    simpl in H.
    destruct (Z.leb_spec (cur + dur) end_dt); [|nia].
    destruct (Z.eqb_spec dur 0); [lia|].
    destruct (Z.ltb_spec dur 0); [lia|].
    destruct (Z.leb_spec cur (now env)); [exact (Hrec out H)|].
    destruct (has_booking env date (cur mod day_seconds)) as [b| |]; cbn [bind] in H;
      try discriminate.
    destruct (sweep fuel env date dn dur (cur + dur) end_dt) as [rest| |] eqn:Hs;
      try discriminate.
    destruct b; injection H as <-; [|right]; exact (Hrec rest eq_refl).
Qed.

End PageCoverage.

Module VideoCoverage.
Import VideoProduction.

Lemma require_ok : forall kvs k msg v,
  require (JObj kvs) k msg = Ok v -> v = payload_get kvs k /\ truthy v = true.
Proof.
  unfold require; intros kvs k msg v H. rewrite IntakeFacts.py_get_obj in H. cbn [rbind] in H.
  destruct (truthy (payload_get kvs k)) eqn:T; [injection H as <-; auto|discriminate].
Qed.

Lemma py_get_present : forall kvs k d,
  truthy (payload_get kvs k) = true -> py_get (JObj kvs) k d = Ok (payload_get kvs k).
Proof.
  unfold payload_get; intros kvs k d T. simpl.
  destruct (assoc k kvs); [reflexivity|discriminate].
Qed.

End VideoCoverage.

Module AvailabilityCoverage.
Import Availability.

Lemma find_filter : forall {A} (p q : A -> bool) l,
  (forall x, p x = true -> q x = true) -> find p (filter q l) = find p l.
Proof.
  intros A p q l H. induction l as [|a l IH]; simpl; [reflexivity|].
  destruct (q a) eqn:Q; simpl.
  - destruct (p a); auto.
  - destruct (p a) eqn:P; [rewrite (H a P) in Q; discriminate|exact IH].
Qed.

Lemma NoDup_snoc : forall {A} (l : list A) x, NoDup l -> ~ In x l -> NoDup (l ++ [x]).
Proof.
  intros A l x Hnd Hx. induction Hnd as [|a l Ha Hnd IH]; simpl.
  - constructor; [intros []|constructor].
  - constructor.
    + rewrite in_app_iff. intros [Hin|[<-|[]]]; [contradiction|apply Hx; left; reflexivity].
    + apply IH. intros Hin. apply Hx. right. exact Hin.
Qed.

Section Coverage.

Variable db_key : json -> string.
Variable cint_str : string -> Z.
Variable save_check : UADoc -> option PyExc.
Variable autoname : list UADoc -> string.
Hypothesis autoname_fresh : forall db, ~ In (autoname db) (map ua_name db).

(** One round either rewrites, in place, the record [frappe.db.exists]
    found for the user and day, or appends a record for them when there
    was none. *)
Lemma save_day_cases : forall user e db db',
  NoDup (map ua_name db) ->
  save_day db_key cint_str save_check autoname user e db = Ok db' ->
  exists doc, ua_user doc = user /\
    ((exists l1 r l2, db = (l1 ++ r :: l2)%list /\ db' = (l1 ++ doc :: l2)%list /\
        ua_user r = user /\ ua_day_of_week doc = ua_day_of_week r) \/
     (db' = (db ++ [doc])%list /\
        forall r, In r db -> matches db_key user (ua_day_of_week doc) r = false)).
Proof.
  intros user e db db' Hnd H. unfold save_day in H.
  destruct (py_get e "day" JNull) as [d|]; [|discriminate]. cbn [rbind] in H.
  destruct (py_get e "is_available" (JInt 0)) as [v|]; [|discriminate]. cbn [rbind] in H.
  destruct (py_get e "time_slots" (JList [])) as [ts|]; [|discriminate]. cbn [rbind] in H.
  destruct (db_exists db_key user d db) as [ex|] eqn:Hex;
    (destruct (new_slots v ts) as [sl|]; [|discriminate]); cbn [rbind] in H.
  - destruct (save_check _); [discriminate|]. injection H as <-.
    destruct (AvailabilityFacts.find_split _ _ _ Hex) as [l1 [l2 [-> [_ Hm]]]].
    unfold matches in Hm. apply andb_true_iff in Hm as [Hu _]. apply String.eqb_eq in Hu.
    exists (mkUA (ua_name ex) (ua_user ex) (ua_day_of_week ex) (check_value cint_str v) sl).
    split; [simpl; exact Hu|]. left. exists l1, ex, l2.
    split; [reflexivity|]. split; [apply AvailabilityFacts.db_update_split; auto|].
    auto.
  - destruct (save_check _); [discriminate|]. injection H as <-.
    exists (mkUA (autoname db) user d (check_value cint_str v) sl).
    split; [reflexivity|]. right. split; [reflexivity|].
    intros r Hr. exact (find_none _ _ Hex r Hr).
Qed.

Lemma save_days_inv : forall (P : list UADoc -> Prop) user l db,
  NoDup (map ua_name db) -> P db ->
  (forall e db db', NoDup (map ua_name db) -> P db ->
     save_day db_key cint_str save_check autoname user e db = Ok db' -> P db') ->
  P (fst (save_days db_key cint_str save_check autoname user l db)).
Proof.
  intros P user l. induction l as [|e l IH]; intros db Hnd HP Hstep; simpl; [exact HP|].
  destruct (save_day db_key cint_str save_check autoname user e db) as [db1|ex] eqn:S;
    [|exact HP].
  apply IH; [exact (AvailabilityFacts.save_day_nodup db_key cint_str save_check autoname
                      autoname_fresh user e db db1 Hnd S)|exact (Hstep e db db1 Hnd HP S)|].
  exact Hstep.
Qed.

(** Whatever the request does, including a failure after some days were
    saved, a property every round keeps holds of the final table. *)
Lemma save_availability_inv : forall (P : list UADoc -> Prop) data user db resp db',
  NoDup (map ua_name db) -> P db ->
  (forall e db db', NoDup (map ua_name db) -> P db ->
     save_day db_key cint_str save_check autoname user e db = Ok db' -> P db') ->
  save_availability db_key cint_str save_check autoname data user db = (resp, db') ->
  P db'.
Proof.
  intros P data user db resp db' Hnd HP Hstep H. unfold save_availability in H.
  destruct (String.eqb user "Guest"); [injection H as _ <-; exact HP|].
  destruct (py_iter data) as [entries|ex]; [|injection H as _ <-; exact HP].
  pose proof (save_days_inv P user entries db Hnd HP Hstep) as G.
  destruct (save_days db_key cint_str save_check autoname user entries db) as [dbf [ex|]];
    injection H as _ <-; exact G.
Qed.

Lemma save_day_others : forall user e db db',
  NoDup (map ua_name db) ->
  save_day db_key cint_str save_check autoname user e db = Ok db' ->
  filter (fun r => negb (String.eqb (ua_user r) user)) db'
  = filter (fun r => negb (String.eqb (ua_user r) user)) db.
Proof.
  intros user e db db' Hnd H.
  destruct (save_day_cases user e db db' Hnd H)
    as [doc [Hu [[l1 [r [l2 [-> [-> [Hr _]]]]]]|[-> _]]]];
    rewrite !filter_app; simpl; rewrite ?Hu, ?Hr, String.eqb_refl; simpl;
    rewrite ?app_nil_r; reflexivity.
Qed.

Lemma save_day_keys : forall user e db db',
  NoDup (map ua_name db) ->
  NoDup (map (fun r => (ua_user r, db_key (ua_day_of_week r))) db) ->
  save_day db_key cint_str save_check autoname user e db = Ok db' ->
  NoDup (map (fun r => (ua_user r, db_key (ua_day_of_week r))) db').
Proof.
  intros user e db db' Hnd Hk H.
  destruct (save_day_cases user e db db' Hnd H)
    as [doc [Hu [[l1 [r [l2 [-> [-> [Hr Hd]]]]]]|[-> Hnone]]]].
  - rewrite map_app in *. simpl in *. rewrite Hu, Hd, <- Hr. exact Hk.
  - rewrite map_app. apply NoDup_snoc; [exact Hk|].
    intros Hin. apply in_map_iff in Hin as [r [Hkr Hr]].
    specialize (Hnone r Hr). unfold matches in Hnone.
    injection Hkr as E1 E2. rewrite E1, E2, Hu, !String.eqb_refl in Hnone. discriminate.
Qed.

End Coverage.

End AvailabilityCoverage.

Module Extras.
Import Examples.

(** [book_appointment.py]'s [get_time_slots] never offers a slot that a
    Pending or Confirmed booking of either record set holds. *)
Theorem slots_never_booked : forall env out bs,
  BookAppointment.get_time_slots env = Some out -> bookings env = Some bs ->
  forall s, In s out -> ~ taken bs (slot_date s) (slot_from s).
Proof.
  intros env out bs H Hb s Hs.
  destruct (Lifting.ab_slots_some env out H) as [Hbody| ->]; [|contradiction].
  destruct (BookAppointmentSweep.body_in env out Hbody s Hs) as [_ [_ [_ Hk]]].
  exact (BookAppointmentFacts.is_booked_false _ _ _ _ Hk Hb).
Qed.

Lemma slots_never_booked_witness :
  ~ taken [booking_9am] monday_2025_01_06 (hm 10 0).
Proof.
  exact (slots_never_booked (ab_env 60 [monday_row (hm 9 0) (hm 11 0)] [booking_9am] sunday_late)
           [mon_slot (hm 10 0) (hm 11 0)] [booking_9am] ltac:(vm_compute; reflexivity) eq_refl
           (mon_slot (hm 10 0) (hm 11 0)) (or_introl eq_refl)).
Defined.

(** Every slot [book_appointment.py] offers lies in the advance-booking
    window, falls on the weekday of a configured row and inside that row's
    range, and lasts [appointment_duration] minutes ([60] when unset). *)
Theorem slots_within_configured_range : forall env out s,
  BookAppointment.get_time_slots env = Some out -> In s out ->
  exists st rows row f t,
    BookAppointment.settings_lookup env = Some st /\ ab_slot_rows env = Some rows /\
    In row rows /\ row_day row = Some (slot_day s) /\ slot_day s = weekday_name (slot_date s) /\
    today env <= slot_date s < today env + BookAppointment.or_default (advance_booking_days st) 7 /\
    row_from_time row = Some f /\ row_to_time row = Some t /\ f <= slot_from s /\
    slot_from s + BookAppointment.or_default (appointment_duration st) 60 * 60 <= t /\
    slot_to s = slot_from s + BookAppointment.or_default (appointment_duration st) 60 * 60.
Proof.
  intros env out s H Hs.
  destruct (Lifting.ab_slots_some env out H) as [Hbody| ->]; [|contradiction].
  destruct (BookAppointmentSweep.body_days env out Hbody)
    as [->|[st [rows [by_day [Hst [Hr [Hg Hc]]]]]]]; [contradiction|].
  destruct (concat_map_out_ret _ _ _ Hc) as [yss [Hf ->]].
  apply in_concat in Hs as [ys [Hys Hs]].
  destruct (Forall2_in_right _ _ _ _ Hf Hys) as [date [Hdate Hd]].
  unfold BookAppointment.day_slots in Hd.
  destruct (BookAppointment.lookup_day by_day (weekday_name date)) as [ranges|] eqn:Hl;
    [|injection Hd as <-; contradiction].
  destruct (concat_map_out_ret _ _ _ Hd) as [yss2 [Hf2 ->]].
  apply in_concat in Hs as [ys2 [Hys2 Hs]].
  destruct (Forall2_in_right _ _ _ _ Hf2 Hys2) as [r [Hrin Hrs]].
  destruct (SlotCoverage.range_slots_within _ _ _ _ _ _ _ Hrs Hs)
    as [f [t [-> [Hsd [Hsn [H1 [H2 H3]]]]]]].
  destruct (SlotCoverage.group_rows_sound _ _ _ _ _ _ Hg Hl Hrin)
    as [[rs0 [Habs _]]|[row [Hrow [Hday Hft]]]]; [discriminate|].
  injection Hft as Hfrom Hto.
  exists st, rows, row, f, t.
  rewrite Hsn, Hsd. repeat split; auto.
  - pose proof (SlotCoverage.date_of_window _ _ _ Hdate). lia.
  - pose proof (SlotCoverage.date_of_window _ _ _ Hdate). lia.
Qed.

Lemma slots_within_configured_range_witness :
  exists st rows row f t,
    BookAppointment.settings_lookup (ab_env 60 [monday_row (hm 9 0) (hm 11 0)] [] sunday_late)
      = Some st /\
    ab_slot_rows (ab_env 60 [monday_row (hm 9 0) (hm 11 0)] [] sunday_late) = Some rows /\
    In row rows /\ row_day row = Some "Monday" /\ "Monday" = weekday_name monday_2025_01_06 /\
    monday_2025_01_06 <= monday_2025_01_06
      < monday_2025_01_06 + BookAppointment.or_default (advance_booking_days st) 7 /\
    row_from_time row = Some f /\ row_to_time row = Some t /\ f <= hm 10 0 /\
    hm 10 0 + BookAppointment.or_default (appointment_duration st) 60 * 60 <= t /\
    hm 11 0 = hm 10 0 + BookAppointment.or_default (appointment_duration st) 60 * 60.
Proof.
  apply (slots_within_configured_range
           (ab_env 60 [monday_row (hm 9 0) (hm 11 0)] [] sunday_late)
           [mon_slot (hm 9 0) (hm 10 0); mon_slot (hm 10 0) (hm 11 0)] (mon_slot (hm 10 0) (hm 11 0))).
  - vm_compute. reflexivity.
  - right. left. reflexivity.
Defined.



(** One row of [Appointment Booking Slots] without a weekday makes
    [book_appointment.py]'s [get_time_slots] return no slot at all when
    scheduling is enabled. *)
Theorem null_weekday_row_empties_slots : forall env st rows row,
  BookAppointment.settings_lookup env = Some st -> enable_scheduling st <> 0 ->
  ab_slot_rows env = Some rows -> In row rows -> day_of_week row = None ->
  BookAppointment.get_time_slots env = Some [].
Proof.
  intros env st rows row Hst Hen Hr Hrow Hd.
  unfold BookAppointment.get_time_slots, BookAppointment.get_time_slots_body.
  rewrite Hst, (proj2 (Z.eqb_neq _ 0) Hen), Hr.
  destruct (SlotCoverage.group_rows_null rows [] row Hrow Hd) as [e He].
  destruct rows; [contradiction|]. rewrite He. reflexivity.
Qed.

Lemma null_weekday_row_empties_slots_witness :
  BookAppointment.get_time_slots
    (ab_env 60 [monday_row (hm 9 0) (hm 11 0); null_day_row] [] sunday_late) = Some [].
Proof.
  apply (null_weekday_row_empties_slots _ (mkABSettings 1 60 1)
           [monday_row (hm 9 0) (hm 11 0); null_day_row] null_day_row);
    try reflexivity; cbn; [discriminate | right; left; reflexivity].
Defined.

(** Every slot [book-appointment.py] offers is on a working day (Monday to
    Friday when none is ticked) of the next 30 days, inside the working
    hours, lasts the shortest active service duration, and no Pending or
    Confirmed [Appointment Booking] holds its start. *)
Theorem page_slots_sound : forall env out s,
  BookAppointmentPage.get_time_slots env = Some out -> In s out ->
  exists st a b d bs,
    app_settings env = Some st /\
    BookAppointmentPage.parse_hm (working_start_time st) (9 * 3600) = Ret a /\
    BookAppointmentPage.parse_hm (working_end_time st) (18 * 3600) = Ret b /\
    BookAppointmentPage.slot_duration env st = Ret d /\
    slot_day s = weekday_name (slot_date s) /\
    In (slot_day s) (BookAppointmentPage.working_days st) /\
    today env <= slot_date s < today env + 30 /\
    a <= slot_from s /\ slot_from s + d * 60 <= b /\ slot_to s = slot_from s + d * 60 /\
    bookings env = Some bs /\
    forall bk, In bk bs -> bk_doctype bk = "Appointment Booking" ->
      bk_date bk = slot_date s -> bk_time bk = slot_from s ->
      bk_status bk <> "Pending" /\ bk_status bk <> "Confirmed".
Proof.
  intros env out s H Hs.
  destruct (Lifting.page_slots_some env out H) as [Hbody| ->]; [|contradiction].
  unfold BookAppointmentPage.get_time_slots_body in Hbody.
  destruct (app_settings env) as [st|]; [|discriminate].
  destruct (BookAppointmentPage.parse_hm (working_start_time st) (9 * 3600)) as [a| |] eqn:Ha;
    try discriminate.
  cbn [bind] in Hbody.
  destruct (BookAppointmentPage.parse_hm (working_end_time st) (18 * 3600)) as [b| |] eqn:Hb;
    try discriminate.
  cbn [bind] in Hbody.
  destruct (BookAppointmentPage.slot_duration env st) as [d| |] eqn:Hd; try discriminate.
  cbn [bind] in Hbody.
  pose proof (BookAppointmentPageSweep.parse_hm_range _ (9 * 3600) _ ltac:(unfold day_seconds; lia) Ha) as Ba.
  pose proof (BookAppointmentPageSweep.parse_hm_range _ (18 * 3600) _ ltac:(unfold day_seconds; lia) Hb) as Bb.
  destruct (concat_map_out_ret _ _ _ Hbody) as [yss [Hf ->]].
  apply in_concat in Hs as [ys [Hys Hs]].
  destruct (Forall2_in_right _ _ _ _ Hf Hys) as [date [Hdate Hday]].
  pose proof (SlotCoverage.date_of_window (today env) 30 date Hdate) as Hw.
  unfold BookAppointmentPage.day_slots in Hday.
  destruct (existsb (String.eqb (weekday_name date)) (BookAppointmentPage.working_days st))
    eqn:Hwd; [|injection Hday as <-; contradiction].
  apply existsb_exists in Hwd as [x [Hx Hxe]]. apply String.eqb_eq in Hxe. subst x.
  destruct (PageCoverage.has_booking_false env (slot_date s) (slot_from s))
    as [bs [Hbs Hfree]].
  { destruct (BookAppointmentPageSweep.page_sweep_sound _ _ _ _ _ _ _ _ Hday s Hs)
      as [k [_ [_ [_ ->]]]].
    exact (PageCoverage.page_sweep_free _ _ _ _ _ _ _ _ Hday _ Hs). }
  destruct (BookAppointmentPageSweep.page_sweep_sound _ _ _ _ _ _ _ _ Hday s Hs)
    as [k [Hpos [Hend [_ ->]]]].
  pose proof (Zle_0_nat k).
  assert (Hk : 0 <= Z.of_nat k * (d * 60)) by nia.
  cbn [slot_date slot_day slot_from slot_to] in *.
  rewrite (mod_in_day date (date * day_seconds + a + Z.of_nat k * (d * 60)))
    in * by (unfold day_seconds in *; lia).
  rewrite (mod_in_day date (date * day_seconds + a + Z.of_nat k * (d * 60) + d * 60))
    by (unfold day_seconds in *; lia).
  exists st, a, b, d, bs.
  repeat split; auto; try (unfold day_seconds in *; lia); eapply Hfree; eauto.
Qed.

Lemma page_slots_sound_witness :
  exists st a b d bs,
    app_settings (page_env (Some (9, 0)) (Some (11, 0)) [60] [booking_9am] sunday_late) = Some st /\
    BookAppointmentPage.parse_hm (working_start_time st) (9 * 3600) = Ret a /\
    BookAppointmentPage.parse_hm (working_end_time st) (18 * 3600) = Ret b /\
    BookAppointmentPage.slot_duration
      (page_env (Some (9, 0)) (Some (11, 0)) [60] [booking_9am] sunday_late) st = Ret d /\
    "Monday" = weekday_name monday_2025_01_06 /\
    In "Monday" (BookAppointmentPage.working_days st) /\
    monday_2025_01_06 <= monday_2025_01_06 < monday_2025_01_06 + 30 /\
    a <= hm 10 0 /\ hm 10 0 + d * 60 <= b /\ hm 11 0 = hm 10 0 + d * 60 /\
    bookings (page_env (Some (9, 0)) (Some (11, 0)) [60] [booking_9am] sunday_late) = Some bs /\
    forall bk, In bk bs -> bk_doctype bk = "Appointment Booking" ->
      bk_date bk = monday_2025_01_06 -> bk_time bk = hm 10 0 ->
      bk_status bk <> "Pending" /\ bk_status bk <> "Confirmed".
Proof.
  pose (E := page_env (Some (9, 0)) (Some (11, 0)) [60] [booking_9am] sunday_late).
  pose (out := match BookAppointmentPage.get_time_slots E with Some l => l | None => [] end).
  assert (H : BookAppointmentPage.get_time_slots E = Some out) by (vm_compute; reflexivity).
  assert (Hs : In (mon_slot (hm 10 0) (hm 11 0)) out) by (vm_compute; left; reflexivity).
  exact (page_slots_sound E out _ H Hs).
Defined.

(** When the shortest active service lasts no minute or less and the
    working hours leave room for one such step, [book-appointment.py]'s
    [get_time_slots] never returns on a zero duration (the cursor never
    moves) and returns no slot at all on a negative one. *)
Theorem page_nonpositive_duration : forall env st a b d,
  app_settings env = Some st ->
  BookAppointmentPage.parse_hm (working_start_time st) (9 * 3600) = Ret a ->
  BookAppointmentPage.parse_hm (working_end_time st) (18 * 3600) = Ret b ->
  BookAppointmentPage.slot_duration env st = Ret d -> d <= 0 -> a + d * 60 <= b ->
  BookAppointmentPage.get_time_slots env = if d =? 0 then None else Some [].
Proof.
  intros env st a b d Hst Ha Hb Hd Hneg Hab.
  unfold BookAppointmentPage.get_time_slots, BookAppointmentPage.get_time_slots_body.
  rewrite Hst, Ha. cbn [bind]. rewrite Hb. cbn [bind]. rewrite Hd. cbn [bind].
  rewrite (PageCoverage.concat_map_out_stuck _ (if d =? 0 then Hang else Raise overflow_error)).
  - destruct (d =? 0); reflexivity.
  - intros l. destruct (d =? 0); discriminate.
  - intros date _. rewrite PageCoverage.day_slots_nonpositive by assumption.
    destruct (existsb _ _); auto.
  - destruct (PageCoverage.working_day_in_week st (today env)) as [i [Hi Hin]].
    exists (today env + i). split.
    + apply (SlotCoverage.date_in_window (today env) 30). lia.
    + rewrite PageCoverage.day_slots_nonpositive by assumption.
      replace (existsb _ _) with true; [reflexivity|].
      symmetry. apply existsb_exists. exists (weekday_name (today env + i)).
      split; [exact Hin|apply String.eqb_refl].
Qed.

Lemma page_nonpositive_duration_witness :
  BookAppointmentPage.get_time_slots (page_env None None [0; 30] [] sunday_late) = None /\
  BookAppointmentPage.get_time_slots (page_env None None [-15] [] sunday_late) = Some [].
Proof.
  split.
  - exact (page_nonpositive_duration (page_env None None [0; 30] [] sunday_late)
             (mkAppSettings None None 0 true false false false false false false)
             (9 * 3600) (18 * 3600) 0 eq_refl eq_refl eq_refl eq_refl
             ltac:(lia) ltac:(lia)).
  - exact (page_nonpositive_duration (page_env None None [-15] [] sunday_late)
             (mkAppSettings None None 0 true false false false false false false)
             (9 * 3600) (18 * 3600) (-15) eq_refl eq_refl eq_refl eq_refl
             ltac:(lia) ltac:(lia)).
Defined.

(** A booking [book_appointment.py]'s [create_appointment] accepts adds
    exactly one [Appointment Booking] at the end of the table, named as the
    response says and Pending.  Every required field was present; the
    record holds the payload's values, one service per item of
    [selected_services] (parsed first when it is a string), the address
    fields (default [""]) for a Customer Location and the settings'
    company location otherwise. *)
Theorem intake_success_record : forall vea jl scl ic an kvs db r db',
  Intake.create_appointment vea jl scl ic an (JObj kvs) db = (r, db') -> success r = true ->
  exists doc services,
    db' = (db ++ [doc])%list /\ appointment_id r = Some (an db) /\
    Intake.ab_status doc = "Pending" /\ ic doc = None /\
    first_missing kvs required_fields = None /\
    vea (payload_get kvs "email") = None /\
    Intake.ab_customer_name doc = payload_get kvs "customer_name" /\
    Intake.ab_phone_number doc = payload_get kvs "phone_number" /\
    Intake.ab_email doc = payload_get kvs "email" /\
    Intake.ab_meeting_location doc = payload_get kvs "meeting_location" /\
    Intake.ab_booking_date doc = payload_get kvs "booking_date" /\
    Intake.ab_booking_time doc = payload_get kvs "booking_time" /\
    (match payload_get kvs "selected_services" with JStr s => jl s | v => Ok v end)
      = Ok services /\
    py_iter services = Ok (Intake.ab_services doc) /\
    if is_str (payload_get kvs "meeting_location") "Customer Location" then
      py_get (JObj kvs) "location" (JStr "") = Ok (Intake.ab_location doc) /\
      py_get (JObj kvs) "street_name" (JStr "") = Ok (Intake.ab_street_name doc) /\
      py_get (JObj kvs) "building_name" (JStr "") = Ok (Intake.ab_building_name doc) /\
      py_get (JObj kvs) "apartment_number" (JStr "") = Ok (Intake.ab_apartment_number doc) /\
      Intake.ab_company_location doc = JNull
    else
      scl = Ok (Intake.ab_company_location doc) /\
      Intake.ab_location doc = JNull /\ Intake.ab_street_name doc = JNull /\
      Intake.ab_building_name doc = JNull /\ Intake.ab_apartment_number doc = JNull.
Proof.
  intros vea jl scl ic an kvs db r db' H Hs.
  unfold Intake.create_appointment in H.
  destruct (Intake.create_appointment_body vea jl scl ic an (JObj kvs) db)
    as [[db1 name]|e] eqn:B; injection H as <- <-; [|discriminate].
  unfold Intake.create_appointment_body, Intake.require in B.
  rewrite !IntakeFacts.py_get_obj in B.
  cbn [rbind] in B.
  destruct (truthy (payload_get kvs "customer_name")) eqn:T1; [|discriminate]. cbn [rbind] in B.
  destruct (truthy (payload_get kvs "phone_number")) eqn:T2; [|discriminate]. cbn [rbind] in B.
  destruct (truthy (payload_get kvs "email")) eqn:T3; [|discriminate]. cbn [rbind] in B.
  destruct (vea (payload_get kvs "email")) eqn:V; [discriminate|]. cbn [rbind] in B.
  destruct (truthy (payload_get kvs "selected_services")) eqn:T4; [|discriminate].
  cbn [rbind] in B.
  destruct (truthy (payload_get kvs "meeting_location")) eqn:T5; [|discriminate].
  cbn [rbind] in B.
  destruct (truthy (payload_get kvs "booking_date")) eqn:T6; [|discriminate]. cbn [rbind] in B.
  destruct (truthy (payload_get kvs "booking_time")) eqn:T7; [|discriminate]. cbn [rbind] in B.
  apply IntakeFacts.rbind_ok_inv in B as [services [Hsv B]].
  apply IntakeFacts.rbind_ok_inv in B as [names [Hit B]].
  apply IntakeFacts.rbind_ok_inv in B as [[[[[l sn] bn] an'] cl] [Hloc B]].
  cbv beta iota in B.
  lazymatch type of B with
  | context [ic ?d] =>
      destruct (ic d) eqn:I; [discriminate|]; injection B as <- <-; exists d, services
  end.
  cbn [Intake.ab_status Intake.ab_customer_name Intake.ab_phone_number Intake.ab_email
       Intake.ab_meeting_location Intake.ab_booking_date Intake.ab_booking_time
       Intake.ab_services Intake.ab_location Intake.ab_street_name Intake.ab_building_name
       Intake.ab_apartment_number Intake.ab_company_location success appointment_id].
  do 12 (split; [first [reflexivity | assumption | cbn [first_missing required_fields];
                          rewrite T1, T2, T3, T4, T5, T6, T7; reflexivity]|]).
  split; [rewrite <- Hsv; destruct (payload_get kvs "selected_services"); reflexivity|].
  split; [exact Hit|].
  destruct (is_str (payload_get kvs "meeting_location") "Customer Location").
  - apply IntakeFacts.rbind_ok_inv in Hloc as [x1 [H1 Hloc]].
    apply IntakeFacts.rbind_ok_inv in Hloc as [x2 [H2 Hloc]].
    apply IntakeFacts.rbind_ok_inv in Hloc as [x3 [H3 Hloc]].
    apply IntakeFacts.rbind_ok_inv in Hloc as [x4 [H4 Hloc]].
    injection Hloc as <- <- <- <- <-. auto.
  - apply IntakeFacts.rbind_ok_inv in Hloc as [x1 [H1 Hloc]].
    injection Hloc as <- <- <- <- <-. auto.
Qed.

Lemma intake_success_record_witness :
  exists doc,
    snd (Intake.create_appointment accept_email loads_empty no_company_location insert_ok apt_name
           full_payload []) = [doc] /\
    Intake.ab_status doc = "Pending" /\
    Intake.ab_services doc = [JStr "Consultation"] /\ Intake.ab_company_location doc = JNull.
Proof.
  pose (kvs := match full_payload with JObj kvs => kvs | _ => [] end).
  pose (res := Intake.create_appointment accept_email loads_empty no_company_location insert_ok
                 apt_name (JObj kvs) []).
  destruct (intake_success_record accept_email loads_empty no_company_location insert_ok apt_name
              kvs [] (fst res) (snd res) (surjective_pairing res) eq_refl)
    as (doc & services & Hdb & _ & Hst & _ & _ & _ & _ & _ & _ & _ & _ & _ & Hsv & Hit & Hloc).
  exists doc. split; [exact Hdb|]. split; [exact Hst|].
  vm_compute in Hsv. injection Hsv as <-. vm_compute in Hit. injection Hit as Hit.
  split; [symmetry; exact Hit|].
  vm_compute in Hloc. destruct Hloc as [Hc _]. injection Hc as Hc. symmetry. exact Hc.
Defined.

(** An appointment the video-production [create_appointment] accepts adds
    exactly one record at the end of the table, named as the response says
    and Pending, which passes [validate].  Every required field was present
    and is stored as sent, with the normalised company.  A New Customer
    record holds the payload's (non-empty) industry, requirements and
    budget and no client fields; any other record holds no New Customer
    field, and for a Current Active Client a brand name and the
    acknowledgment. *)
Theorem video_success_record : forall vea ic an kvs db r db',
  VideoProduction.create_appointment vea ic an (JObj kvs) db = (r, db') -> success r = true ->
  exists doc,
    db' = (db ++ [doc])%list /\ appointment_id r = Some (an db) /\
    VideoProduction.vd_status doc = "Pending" /\ VideoProduction.validate doc = Ok tt /\
    ic doc = None /\ vea (payload_get kvs "email") = None /\
    VideoProduction.check_company (JObj kvs) = Ok (VideoProduction.vd_company doc) /\
    VideoProduction.vd_customer_name doc = payload_get kvs "customer_name" /\
    VideoProduction.vd_phone_number doc = payload_get kvs "phone_number" /\
    VideoProduction.vd_email doc = payload_get kvs "email" /\
    VideoProduction.vd_appointment_type doc = payload_get kvs "appointment_type" /\
    VideoProduction.vd_meeting_location doc = payload_get kvs "meeting_location" /\
    VideoProduction.vd_booking_date doc = payload_get kvs "booking_date" /\
    VideoProduction.vd_booking_time doc = payload_get kvs "booking_time" /\
    truthy (payload_get kvs "customer_name") = true /\ truthy (payload_get kvs "phone_number") = true /\
    truthy (payload_get kvs "email") = true /\ truthy (payload_get kvs "appointment_type") = true /\
    truthy (payload_get kvs "meeting_location") = true /\
    truthy (payload_get kvs "booking_date") = true /\ truthy (payload_get kvs "booking_time") = true /\
    if is_str (payload_get kvs "appointment_type") "New Customer" then
      py_get (JObj kvs) "industry" (JStr "") = Ok (VideoProduction.vd_industry doc) /\
      py_get (JObj kvs) "requirements" (JStr "") = Ok (VideoProduction.vd_requirements doc) /\
      py_get (JObj kvs) "budget" (JStr "") = Ok (VideoProduction.vd_budget doc) /\
      truthy (VideoProduction.vd_industry doc) = true /\
      truthy (VideoProduction.vd_requirements doc) = true /\
      truthy (VideoProduction.vd_budget doc) = true /\
      VideoProduction.vd_brand_name doc = JNull /\
      VideoProduction.vd_acknowledgment_checkbox doc = JNull /\
      VideoProduction.vd_current_client_references doc = JNull
    else
      VideoProduction.vd_industry doc = JNull /\ VideoProduction.vd_service doc = JNull /\
      VideoProduction.vd_requirements doc = JNull /\ VideoProduction.vd_budget doc = JNull /\
      VideoProduction.vd_notes doc = JNull /\ VideoProduction.vd_references doc = JNull /\
      py_get (JObj kvs) "brand_name" (JStr "") = Ok (VideoProduction.vd_brand_name doc) /\
      py_get (JObj kvs) "acknowledgment_checkbox" (JInt 0)
        = Ok (VideoProduction.vd_acknowledgment_checkbox doc) /\
      (is_str (payload_get kvs "appointment_type") "Current Active Client" = true ->
       truthy (VideoProduction.vd_brand_name doc) = true /\
       truthy (VideoProduction.vd_acknowledgment_checkbox doc) = true).
Proof.
  intros vea ic an kvs db r db' H Hs.
  unfold VideoProduction.create_appointment in H.
  destruct (VideoProduction.create_appointment_body vea ic an (JObj kvs) db)
    as [[db1 name]|e] eqn:B; injection H as <- <-; [|discriminate].
  unfold VideoProduction.create_appointment_body in B.
  repeat (let a := fresh "v" in let Ha := fresh "Hv" in
          apply IntakeFacts.rbind_ok_inv in B as [a [Ha B]]; cbv beta zeta in B).
  destruct (ic _) eqn:I in B; [discriminate|]. injection B as <- <-.
  apply VideoCoverage.require_ok in Hv as [-> T1].
  apply VideoCoverage.require_ok in Hv0 as [-> T2].
  apply VideoCoverage.require_ok in Hv1 as [-> T3].
  destruct (vea (payload_get kvs "email")) eqn:E; [discriminate|].
  apply VideoCoverage.require_ok in Hv3 as [-> T4].
  apply VideoCoverage.require_ok in Hv4 as [E4 T5]. subst v4.
  apply VideoCoverage.require_ok in Hv5 as [-> T6].
  apply VideoCoverage.require_ok in Hv6 as [-> T7].
  rewrite (VideoCoverage.py_get_present _ _ _ T5) in Hv17. injection Hv17 as <-.
  destruct v27. eexists. cbn [VideoProduction.vd_status VideoProduction.vd_company
    VideoProduction.vd_customer_name VideoProduction.vd_phone_number VideoProduction.vd_email
    VideoProduction.vd_appointment_type VideoProduction.vd_meeting_location
    VideoProduction.vd_booking_date VideoProduction.vd_booking_time VideoProduction.vd_industry
    VideoProduction.vd_service VideoProduction.vd_requirements VideoProduction.vd_budget
    VideoProduction.vd_notes VideoProduction.vd_references VideoProduction.vd_brand_name
    VideoProduction.vd_acknowledgment_checkbox VideoProduction.vd_current_client_references
    success appointment_id].
  do 21 (split; [first [reflexivity | eassumption]|]).
  unfold VideoProduction.validate in Hv27. cbn [VideoProduction.vd_appointment_type
    VideoProduction.vd_industry VideoProduction.vd_requirements VideoProduction.vd_budget
    VideoProduction.vd_brand_name VideoProduction.vd_booking_date
    VideoProduction.vd_acknowledgment_checkbox] in Hv27.
  destruct (is_str (payload_get kvs "appointment_type") "New Customer");
    cbv iota in Hv8, Hv9, Hv10, Hv11, Hv12, Hv13, Hv14, Hv15, Hv16 |- *.
  - injection Hv14 as <-. injection Hv15 as <-. injection Hv16 as <-.
    destruct (truthy v8) eqn:T8; [|discriminate]. destruct (truthy v10) eqn:T10; [|discriminate].
    destruct (truthy v11) eqn:T11; [|discriminate]. auto 20.
  - injection Hv8 as <-. injection Hv9 as <-. injection Hv10 as <-. injection Hv11 as <-.
    injection Hv12 as <-. injection Hv13 as <-.
    do 8 (split; [auto|]). intros C.
    cbn [VideoProduction.vd_brand_name VideoProduction.vd_acknowledgment_checkbox].
    rewrite C in Hv27.
    destruct (truthy v14); [|discriminate].
    destruct (truthy (payload_get kvs "booking_date")); [|discriminate].
    destruct (truthy v15); [|discriminate]. auto.
Qed.

Lemma video_success_record_witness :
  exists doc,
    snd (VideoProduction.create_appointment accept_email insert_ok apt_name
           (JObj (client_payload [])) []) = [doc] /\
    VideoProduction.vd_company doc = JStr "Directlines" /\
    VideoProduction.vd_brand_name doc = JStr "Acme" /\ VideoProduction.vd_industry doc = JNull.
Proof.
  pose (res := VideoProduction.create_appointment accept_email insert_ok apt_name
                 (JObj (client_payload [])) []).
  destruct (video_success_record accept_email insert_ok apt_name (client_payload []) []
              (fst res) (snd res) (surjective_pairing res) eq_refl)
    as (doc & Hdb & _ & _ & _ & _ & _ & Hc & _ & _ & _ & _ & _ & _ & _ & _ & _ & _ & _ & _ & _
        & _ & Hty).
  exists doc. split; [exact Hdb|].
  vm_compute in Hc. injection Hc as Hc. split; [symmetry; exact Hc|].
  vm_compute in Hty. destruct Hty as (Hi & _ & _ & _ & _ & _ & Hb & _).
  injection Hb as Hb. split; [symmetry; exact Hb|exact Hi].
Defined.

(** Saving one user's availability, whether it succeeds or fails part way,
    never changes another user's [User Availability] records, so their
    availability page shows the same as before. *)
Theorem availability_other_users_unchanged :
  forall db_key cint_str save_check autoname data user db resp db' other fs,
  (forall l, ~ In (autoname l) (map Availability.ua_name l)) ->
  NoDup (map Availability.ua_name db) ->
  Availability.save_availability db_key cint_str save_check autoname data user db = (resp, db') ->
  other <> user ->
  filter (fun r => negb (String.eqb (Availability.ua_user r) user)) db'
    = filter (fun r => negb (String.eqb (Availability.ua_user r) user)) db /\
  AvailabilityPage.get_context db_key other (Some db') fs
    = AvailabilityPage.get_context db_key other (Some db) fs.
Proof.
  intros db_key cint_str save_check autoname data user db resp db' other fs Hfresh Hnd H Hne.
  assert (Hf : filter (fun r => negb (String.eqb (Availability.ua_user r) user)) db'
             = filter (fun r => negb (String.eqb (Availability.ua_user r) user)) db).
  { apply (AvailabilityCoverage.save_availability_inv db_key cint_str save_check autoname Hfresh
             (fun l => filter (fun r => negb (String.eqb (Availability.ua_user r) user)) l
                       = filter (fun r => negb (String.eqb (Availability.ua_user r) user)) db)
             data user db resp db' Hnd eq_refl); [|exact H].
    intros e d1 d2 Hnd1 HP S. rewrite <- HP.
    exact (AvailabilityCoverage.save_day_others db_key cint_str save_check autoname
             user e d1 d2 Hnd1 S). }
  split; [exact Hf|].
  unfold AvailabilityPage.get_context. destruct (String.eqb other "Guest"); [reflexivity|].
  do 2 f_equal. apply map_ext. intros day. f_equal.
  unfold AvailabilityPage.day_view, Availability.db_exists.
  assert (Hq : forall x, Availability.matches db_key other (JStr day) x = true ->
                 negb (String.eqb (Availability.ua_user x) user) = true).
  { intros x Hm. unfold Availability.matches in Hm. apply andb_true_iff in Hm as [Hu _].
    apply String.eqb_eq in Hu. rewrite Hu. apply negb_true_iff, String.eqb_neq. exact Hne. }
  rewrite <- (AvailabilityCoverage.find_filter _ _ db' Hq),
          <- (AvailabilityCoverage.find_filter _ _ db Hq), Hf.
  reflexivity.
Qed.

Lemma availability_other_users_unchanged_witness :
  AvailabilityPage.get_context day_key "ahmed@example.com"
    (Some [Availability.mkUA "UA0" "ahmed@example.com" (JStr "Monday") 1 []]) JNull
  = AvailabilityPage.get_context day_key "ahmed@example.com"
      (Some (snd (Availability.save_availability day_key cint_zero insert_ok ua_name_of
                    (JList [monday_on]) "mariam@example.com"
                    [Availability.mkUA "UA0" "ahmed@example.com" (JStr "Monday") 1 []])))
      JNull.
Proof.
  pose (res := Availability.save_availability day_key cint_zero insert_ok ua_name_of
                 (JList [monday_on]) "mariam@example.com"
                 [Availability.mkUA "UA0" "ahmed@example.com" (JStr "Monday") 1 []]).
  symmetry.
  exact (proj2 (availability_other_users_unchanged day_key cint_zero insert_ok ua_name_of
           (JList [monday_on]) "mariam@example.com"
           [Availability.mkUA "UA0" "ahmed@example.com" (JStr "Monday") 1 []]
           (fst res) (snd res) "ahmed@example.com" JNull
           ExampleFacts.ua_name_of_fresh
           ltac:(repeat constructor; simpl; tauto) (surjective_pairing res)
           ltac:(discriminate))).
Defined.

(** [save_availability] never creates a second [User Availability] record
    for the same user and day (as the database compares [day_of_week]),
    whether it succeeds or fails part way. *)
Theorem availability_one_record_per_day :
  forall db_key cint_str save_check autoname data user db resp db',
  (forall l, ~ In (autoname l) (map Availability.ua_name l)) ->
  NoDup (map Availability.ua_name db) ->
  NoDup (map (fun r => (Availability.ua_user r, db_key (Availability.ua_day_of_week r))) db) ->
  Availability.save_availability db_key cint_str save_check autoname data user db = (resp, db') ->
  NoDup (map (fun r => (Availability.ua_user r, db_key (Availability.ua_day_of_week r))) db').
Proof.
  intros db_key cint_str save_check autoname data user db resp db' Hfresh Hnd Hk H.
  apply (AvailabilityCoverage.save_availability_inv db_key cint_str save_check autoname Hfresh
           (fun l => NoDup (map (fun r => (Availability.ua_user r,
                                           db_key (Availability.ua_day_of_week r))) l))
           data user db resp db' Hnd Hk); [|exact H].
  intros e d1 d2 Hnd1 HP S.
  exact (AvailabilityCoverage.save_day_keys db_key cint_str save_check autoname
           user e d1 d2 Hnd1 HP S).
Qed.

Lemma availability_one_record_per_day_witness :
  NoDup (map (fun r => (Availability.ua_user r, day_key (Availability.ua_day_of_week r)))
    (snd (Availability.save_availability day_key cint_zero insert_ok ua_name_of
            (JList [monday_off; monday_on]) "mariam@example.com" []))).
Proof.
  pose (res := Availability.save_availability day_key cint_zero insert_ok ua_name_of
                 (JList [monday_off; monday_on]) "mariam@example.com" []).
  exact (availability_one_record_per_day day_key cint_zero insert_ok ua_name_of
           (JList [monday_off; monday_on]) "mariam@example.com" [] (fst res) (snd res)
           ExampleFacts.ua_name_of_fresh (NoDup_nil _) (NoDup_nil _) (surjective_pairing res)).
Defined.



(** Conversely, when [book-appointment.py]'s slot generation raises
    nothing, it offers every step of the shortest service duration that
    fits in the working hours of a working day of the next 30 days, starts
    after the request time and that no Pending or Confirmed
    [Appointment Booking] holds. *)
Theorem page_slots_complete : forall env out st a b d date k bs,
  BookAppointmentPage.get_time_slots_body env = Ret out ->
  app_settings env = Some st ->
  BookAppointmentPage.parse_hm (working_start_time st) (9 * 3600) = Ret a ->
  BookAppointmentPage.parse_hm (working_end_time st) (18 * 3600) = Ret b ->
  BookAppointmentPage.slot_duration env st = Ret d -> 0 < d ->
  today env <= date < today env + 30 ->
  In (weekday_name date) (BookAppointmentPage.working_days st) ->
  a + Z.of_nat k * (d * 60) + d * 60 <= b ->
  now env < date * day_seconds + a + Z.of_nat k * (d * 60) ->
  bookings env = Some bs ->
  (forall bk, In bk bs -> bk_doctype bk = "Appointment Booking" -> bk_date bk = date ->
     bk_time bk = a + Z.of_nat k * (d * 60) ->
     bk_status bk <> "Pending" /\ bk_status bk <> "Confirmed") ->
  In (mkSlot date (weekday_name date) (a + Z.of_nat k * (d * 60))
        (a + Z.of_nat k * (d * 60) + d * 60)) out.
Proof.
  intros env out st a b d date k bs H Hst Ha Hb Hd Hpos Hwin Hwd Hend Hnow Hbs Hfree.
  unfold BookAppointmentPage.get_time_slots_body in H.
  rewrite Hst, Ha in H. cbn [bind] in H. rewrite Hb in H. cbn [bind] in H.
  rewrite Hd in H. cbn [bind] in H.
  pose proof (BookAppointmentPageSweep.parse_hm_range _ (9 * 3600) _
                ltac:(unfold day_seconds; lia) Ha) as Ba.
  pose proof (BookAppointmentPageSweep.parse_hm_range _ (18 * 3600) _
                ltac:(unfold day_seconds; lia) Hb) as Bb.
  destruct (SlotCoverage.concat_map_out_in _ _ _ date H
              (SlotCoverage.date_in_window (today env) 30 date Hwin)) as [ys [Hday Hys]].
  apply Hys. unfold BookAppointmentPage.day_slots in Hday.
  replace (existsb (String.eqb (weekday_name date)) (BookAppointmentPage.working_days st))
    with true in Hday
    by (symmetry; apply existsb_exists; exists (weekday_name date);
        split; [exact Hwd|apply String.eqb_refl]).
  pose proof (Zle_0_nat k).
  assert (Hk0 : 0 <= Z.of_nat k * (d * 60)) by nia.
  assert (M1 : (date * day_seconds + a + Z.of_nat k * (d * 60)) mod day_seconds
               = a + Z.of_nat k * (d * 60)).
  { rewrite (mod_in_day date); unfold day_seconds in *; lia. }
  assert (M2 : (date * day_seconds + a + Z.of_nat k * (d * 60) + d * 60) mod day_seconds
               = a + Z.of_nat k * (d * 60) + d * 60).
  { rewrite (mod_in_day date); unfold day_seconds in *; lia. }
  assert (HH := PageCoverage.page_sweep_complete k _ env date (weekday_name date) (d * 60)
                  _ _ _ Hday).
  rewrite M1, M2 in HH. apply HH; try lia.
  apply (PageCoverage.has_booking_free env date _ bs Hbs Hfree).
Qed.

Lemma page_slots_complete_witness :
  In (mkSlot monday_2025_01_06 "Monday" (hm 9 0 + Z.of_nat 1 * (60 * 60))
        (hm 9 0 + Z.of_nat 1 * (60 * 60) + 60 * 60))
     (match BookAppointmentPage.get_time_slots
              (page_env (Some (9, 0)) (Some (11, 0)) [60] [booking_9am] sunday_late) with
      | Some l => l | None => [] end).
Proof.
  pose (E := page_env (Some (9, 0)) (Some (11, 0)) [60] [booking_9am] sunday_late).
  pose (out := match BookAppointmentPage.get_time_slots E with Some l => l | None => [] end).
  assert (H : BookAppointmentPage.get_time_slots_body E = Ret out) by (vm_compute; reflexivity).
  apply (page_slots_complete E out (mkAppSettings (Some (9, 0)) (Some (11, 0)) 0
           true false false false false false false) (hm 9 0) (hm 11 0) 60 monday_2025_01_06 1
           [booking_9am] H); try (vm_compute; reflexivity); try (vm_compute; congruence).
  - vm_compute. split; congruence.
  - left. reflexivity.
  - intros bk [<-|[]] _ _ Ht. vm_compute in Ht. discriminate.
Defined.

End Extras.
